(** * Operator actions of the neutron-openvswitch charm (actions/os_actions.py)

    A shallow embedding of the action handlers and of the dispatcher [main].
    Every function the module imports from charmhelpers, neutron_ovs_hooks or
    neutron_ovs_utils is an external call: it is recorded, in order, in a
    trace, it may raise, and what it returns is read from an environment.
    The handlers are written in a reader/state/exception monad over that
    environment and the mutable stores (trace, unit status, deferred hooks). *)

From Stdlib Require Import String Ascii List Bool Arith ZArith.
Import ListNotations.
Open Scope string_scope.
Open Scope list_scope.

(** ** Python values met by the module *)

(** What [action_get], [config] and the host-info dictionary hand back: they
    are decoded from JSON/YAML, so a key that is absent reads as [None]. *)
Inductive pyvalue : Type :=
| PNone
| PBool (b : bool)
| PInt (z : Z)
| PStr (s : string).

(** Python truth value, as used by [if x], [x and y], [not x]. *)
Definition truthy (v : pyvalue) : bool :=
  match v with
  | PNone => false
  | PBool b => b
  | PInt z => negb (Z.eqb z 0)
  | PStr s => negb (String.eqb s "")
  end.

(** [type(v).__name__], needed for the text of an AttributeError. *)
Definition type_name (v : pyvalue) : string :=
  match v with
  | PNone => "NoneType"
  | PBool _ => "bool"
  | PInt _ => "int"
  | PStr _ => "str"
  end.

(** A raised exception: the name of its class and [str(e)]. *)
Record exn : Type := Exn { exn_class : string; exn_str : string }.

(** The classes of the built-in hierarchy that do not derive from
    [Exception]; an [except Exception] clause lets them through. *)
Definition outside_Exception : list string :=
  ["BaseException"; "SystemExit"; "KeyboardInterrupt"; "GeneratorExit"].

(** [isinstance(e, Exception)] *)
Definition is_Exception (e : exn) : bool :=
  negb (existsb (String.eqb (exn_class e)) outside_Exception).

Definition AttributeError (v : pyvalue) (attr : string) : exn :=
  Exn "AttributeError"
      ("'" ++ type_name v ++ "' object has no attribute '" ++ attr ++ "'").

Definition IndexError (msg : string) : exn := Exn "IndexError" msg.

(** ** String helpers: [str.split()] and [os.path.basename] *)

(** [str.isspace] on the ASCII range: TAB, LF, VT, FF, CR, FS, GS, RS, US and
    the blank. Python also splits at the white space outside ASCII (U+0085,
    U+00A0, U+2003, ...), which [split_from] does not see: it is [str.split]
    on ASCII strings only, and the statements that split an arbitrary string
    say so in a hypothesis ([ascii_only]). *)
Definition isspace (c : ascii) : bool :=
  let n := nat_of_ascii c in
  ((9 <=? n)%nat && (n <=? 13)%nat) || ((28 <=? n)%nat && (n <=? 32)%nat).

Definition snoc_char (s : string) (c : ascii) : string :=
  s ++ String c EmptyString.

Definition flush (cur : string) (rest : list string) : list string :=
  match cur with
  | EmptyString => rest
  | _ => cur :: rest
  end.

(** [s.split()] with no separator: the maximal runs of non-blank characters;
    [cur] is the token being read. *)
Fixpoint split_from (cur : string) (s : string) : list string :=
  match s with
  | EmptyString => flush cur []
  | String c r =>
      if isspace c then flush cur (split_from EmptyString r)
      else split_from (snoc_char cur c) r
  end.

Definition str_split (s : string) : list string := split_from EmptyString s.

(** [posixpath.basename]: what follows the last slash; [cur] is what has been
    read since the last slash. *)
Fixpoint basename_from (cur : string) (p : string) : string :=
  match p with
  | EmptyString => cur
  | String c r =>
      if Ascii.eqb c "/"%char then basename_from EmptyString r
      else basename_from (snoc_char cur c) r
  end.

Definition basename (p : string) : string := basename_from EmptyString p.

Definition str_in (s : string) (l : list string) : bool :=
  existsb (String.eqb s) l.

Definition nonempty {A : Type} (l : list A) : bool :=
  match l with
  | [] => false
  | _ :: _ => true
  end.

(** ['{}'.format(b)] for a boolean. *)
Definition str_of_bool (b : bool) : string := if b then "True" else "False".

(** ** Data model *)

(** An agent as the network API lists it (a dictionary with these keys). *)
Record Agent : Type := mkAgent {
  id : string;
  agent_type : string;
  binary : string;
  host : string;
  admin_state_up : bool
}.

(** Modelled from the spec: the WORKLOAD_STATES enumeration is imported, not
    defined, by the module; the spec gives the state labels (active, blocked,
    maintenance, waiting, unknown) and [value] is the label. *)
Inductive WORKLOAD_STATES : Type :=
  ACTIVE | BLOCKED | MAINTENANCE | WAITING | UNKNOWN.

Definition value (s : WORKLOAD_STATES) : string :=
  match s with
  | ACTIVE => "active"
  | BLOCKED => "blocked"
  | MAINTENANCE => "maintenance"
  | WAITING => "waiting"
  | UNKNOWN => "unknown"
  end.

(** hookenv's log levels used here. *)
Inductive level : Type := DEBUG | WARNING.

(** The two ways [restart_services_action] is called. *)
Inductive restart_selector : Type :=
| DeferredOnly (b : bool)
| Services (names : list string).

(** The external calls of the module, with their arguments. *)
Inductive Call : Type :=
| CActionGet (key : string)
| CActionFail (msg : string)
| CConfig (key : string)
| CLog (msg : string) (lvl : option level)
| CFunctionSet (fields : list (string * string))
| CFunctionFail (msg : string)
| CStatusGet
| CStatusSet (st : WORKLOAD_STATES) (msg : string)
| CServicePause (name : string)
| CServiceResume (name : string)
| CGetNeutron
| CHostInfoContext
| CGetNetworkAgentsOnHost (host_name : pyvalue)
| CUpdateAgent (agent_id : string) (admin_state : bool)
| CDeleteAgent (agent_id : string)
| CRegisterConfigs
| CPauseUnitHelper (configs : string) (exclude_services : list string)
| CResumeUnitHelper (configs : string) (exclude_services : list string)
| CAssessStatus (configs : string)
| CRestartServicesAction (sel : restart_selector)
| CShowDeferredEventsActionHelper
| CIsRestartPermitted
| CGetDeferredHooks
| CConfigChanged (check_deferred_restarts : bool)
| CClearDeferredHook (hook : string).

(** What the handlers read and never write. [faults] decides, from the calls
    made so far and the call being made, whether that call raises;
    [assessed_status] is the workload status an assessment of the unit
    arrives at after the calls made so far. *)
Record Env : Type := mkEnv {
  params : string -> pyvalue;
  conf : string -> pyvalue;
  host_info : string -> pyvalue;
  agents_on_host : pyvalue -> list Agent;
  restart_permitted : bool;
  configs_handle : string;
  role_services : list string;
  faults : list Call -> Call -> option exn;
  assessed_status : list Call -> string * string
}.

(** What the handlers change: the calls made, the unit's workload status and
    the deferred-hook markers of the event store. *)
Record State : Type := mkState {
  trace : list Call;
  status : string * string;
  deferred_hooks : list string
}.

Definition record_call (c : Call) (st : State) : State :=
  mkState (trace st ++ [c]) (status st) (deferred_hooks st).

Definition write_status (s : string * string) (st : State) : State :=
  mkState (trace st) s (deferred_hooks st).

Definition write_deferred_hooks (hs : list string) (st : State) : State :=
  mkState (trace st) (status st) hs.

(** ** The monad *)

Inductive result (A : Type) : Type :=
| Ok (a : A)
| Raise (e : exn).

Arguments Ok {A} a.
Arguments Raise {A} e.

Definition M (A : Type) : Type := Env -> State -> result A * State.

Definition ret {A : Type} (a : A) : M A := fun _ st => (Ok a, st).

Definition raise {A : Type} (e : exn) : M A := fun _ st => (Raise e, st).

Definition bind {A B : Type} (m : M A) (k : A -> M B) : M B :=
  fun env st =>
    match m env st with
    | (Ok a, st') => k a env st'
    | (Raise e, st') => (Raise e, st')
    end.

(** [try: m except Exception as e: h e]: an exception that is not an
    instance of [Exception] is not caught and goes on propagating. *)
Definition try_except {A : Type} (m : M A) (h : exn -> M A) : M A :=
  fun env st =>
    match m env st with
    | (Ok a, st') => (Ok a, st')
    | (Raise e, st') =>
        if is_Exception e then h e env st' else (Raise e, st')
    end.

Declare Scope py_scope.
Delimit Scope py_scope with py.
Notation "x <- m ;; k" := (bind m (fun x => k))
  (at level 61, m at next level, right associativity) : py_scope.
Notation "m ;; k" := (bind m (fun _ => k))
  (at level 61, right associativity) : py_scope.
Open Scope py_scope.

Definition ask : M Env := fun env st => (Ok env, st).
Definition get : M State := fun _ st => (Ok st, st).
Definition modify (f : State -> State) : M unit := fun _ st => (Ok tt, f st).

(** An external call: it is recorded, then it raises if [faults] says so. *)
Definition call (c : Call) : M unit :=
  fun env st =>
    match faults env (trace st) c with
    | Some e => (Raise e, record_call c st)
    | None => (Ok tt, record_call c st)
    end.

(** [for x in l: body x] *)
Fixpoint for_each {A : Type} (l : list A) (body : A -> M unit) : M unit :=
  match l with
  | [] => ret tt
  | x :: r => body x ;; for_each r body
  end.

(** [if c: m] with no else branch. *)
Definition when (c : bool) (m : M unit) : M unit := if c then m else ret tt.

(** ** The imported functions

    Each is one recorded call; a query returns what the environment or the
    stores hold. *)

(** hookenv *)
Definition action_get (key : string) : M pyvalue :=
  call (CActionGet key) ;; env <- ask ;; ret (params env key).

Definition action_fail (msg : string) : M unit := call (CActionFail msg).

Definition config (key : string) : M pyvalue :=
  call (CConfig key) ;; env <- ask ;; ret (conf env key).

Definition log (msg : string) (lvl : option level) : M unit :=
  call (CLog msg lvl).

Definition function_set (fields : list (string * string)) : M unit :=
  call (CFunctionSet fields).

Definition function_fail (msg : string) : M unit := call (CFunctionFail msg).

Definition status_get : M (string * string) :=
  call CStatusGet ;; st <- get ;; ret (status st).

Definition status_set (s : WORKLOAD_STATES) (msg : string) : M unit :=
  call (CStatusSet s msg) ;; modify (write_status (value s, msg)).

(** host *)
Definition service_pause (name : string) : M unit := call (CServicePause name).

Definition service_resume (name : string) : M unit :=
  call (CServiceResume name).

(** charmhelpers.contrib.openstack.neutron; the client object is opaque. *)
Definition get_neutron : M unit := call CGetNeutron.

Definition get_network_agents_on_host (host_name : pyvalue) (neutron_client : unit)
  : M (list Agent) :=
  call (CGetNetworkAgentsOnHost host_name) ;;
  env <- ask ;; ret (agents_on_host env host_name).

Definition update_agent (neutron_client : unit) (agent_id : string)
    (admin_state : bool) : M unit :=
  call (CUpdateAgent agent_id admin_state).

Definition delete_agent (neutron_client : unit) (agent_id : string) : M unit :=
  call (CDeleteAgent agent_id).

(** os_context.HostInfoContext(use_fqdn_hint_cb=use_fqdn_hint)() *)
Definition HostInfoContext : M (string -> pyvalue) :=
  call CHostInfoContext ;; env <- ask ;; ret (host_info env).

(** charmhelpers.contrib.openstack.deferred_events *)
Definition is_restart_permitted : M bool :=
  call CIsRestartPermitted ;; env <- ask ;; ret (restart_permitted env).

Definition get_deferred_hooks : M (list string) :=
  call CGetDeferredHooks ;; st <- get ;; ret (deferred_hooks st).

Definition remove_hook (hook : string) (hs : list string) : list string :=
  filter (fun h => negb (String.eqb h hook)) hs.

Definition clear_deferred_hook (hook : string) : M unit :=
  call (CClearDeferredHook hook) ;;
  st <- get ;; modify (write_deferred_hooks (remove_hook hook (deferred_hooks st))).

(** charmhelpers.contrib.openstack.utils *)
Definition restart_services_action (sel : restart_selector) : M unit :=
  call (CRestartServicesAction sel).

Definition show_deferred_events_action_helper : M unit :=
  call CShowDeferredEventsActionHelper.

(** neutron_ovs_hooks.config_changed, the hook handler: one recorded call
    that may raise. What the hook does to the unit beyond that call is not
    part of this module and is not modelled. *)
Definition config_changed (check_deferred_restarts : bool) : M unit :=
  call (CConfigChanged check_deferred_restarts).

Definition register_configs : M string :=
  call CRegisterConfigs ;; env <- ask ;; ret (configs_handle env).

(** Modelled from the spec: neutron_ovs_utils.assess_status is imported, not
    defined, by the module. The spec describes it as recomputing the overall
    health of the unit and reporting it: it overwrites the workload status
    with the status the assessment arrives at. *)
Definition assess_status (configs : string) : M unit :=
  call (CAssessStatus configs) ;;
  env <- ask ;; st <- get ;;
  modify (write_status (assessed_status env (trace st))).

Definition kept_services (exclude_services : list string) (env : Env)
  : list string :=
  filter (fun s => negb (str_in s exclude_services)) (role_services env).

(** Modelled from the spec: neutron_ovs_utils.pause_unit_helper is imported,
    not defined, by the module. The spec describes it as the generic helper
    that pauses all services configured for this role, with the services of
    the exclusion list left out. *)
Definition pause_unit_helper (configs : string) (exclude_services : list string)
  : M unit :=
  call (CPauseUnitHelper configs exclude_services) ;;
  env <- ask ;;
  for_each (kept_services exclude_services env) service_pause.

(** Modelled from the spec: neutron_ovs_utils.resume_unit_helper is imported,
    not defined, by the module. The spec describes it as the generic helper
    that resumes all services configured for this role, with the services of
    the exclusion list left out. *)
Definition resume_unit_helper (configs : string) (exclude_services : list string)
  : M unit :=
  call (CResumeUnitHelper configs exclude_services) ;;
  env <- ask ;;
  for_each (kept_services exclude_services env) service_resume.

(** [v.split()] on a parameter value: only a string has the method. *)
Definition py_split (v : pyvalue) : M (list string) :=
  match v with
  | PStr s => ret (str_split s)
  | _ => raise (AttributeError v "split")
  end.

(** ** actions/os_actions.py *)

Definition UNIT_REMOVED_MSG : string :=
  "Neutron agents were removed from the cloud".

Definition _get_agents_binaries : M (list string) :=
  let agents_binaries := ["neutron-openvswitch-agent"; "neutron-l3-agent"] in
  flag <- config "enable-local-dhcp-and-metadata" ;;
  if truthy flag
  then ret (agents_binaries ++ ["neutron-metadata-agent"; "neutron-dhcp-agent"])
  else ret agents_binaries.

Definition _get_agents (neutron_client : unit) : M (list Agent) :=
  host_info <- HostInfoContext ;;
  let host_name :=
    if truthy (host_info "use_fqdn_hint")
    then host_info "host_fqdn"
    else host_info "host" in
  agents <- get_network_agents_on_host host_name neutron_client ;;
  when (negb (nonempty agents)) (log "No agents registered" (Some WARNING)) ;;
  agents_binaries <- _get_agents_binaries ;;
  ret (filter (fun agent => str_in (binary agent) agents_binaries) agents).

Definition _set_agents (state : bool) : M unit :=
  neutron_client <- get_neutron ;;
  agents <- _get_agents neutron_client ;;
  for_each agents (fun agent => update_agent neutron_client (id agent) state) ;;
  log ("Set neutron agents to admin_state_up: " ++ str_of_bool state)%string
      None.

Definition disable (args : list string) : M unit := _set_agents false.

Definition enable (args : list string) : M unit := _set_agents true.

Definition pause (args : list string) : M unit :=
  configs <- register_configs ;;
  pause_unit_helper configs ["openvswitch-switch"].

Definition resume (args : list string) : M unit :=
  configs <- register_configs ;;
  resume_unit_helper configs ["openvswitch-switch"].

Definition register_to_cloud (args : list string) : M unit :=
  log "Starting neutron agents" (Some DEBUG) ;;
  agents_binaries <- _get_agents_binaries ;;
  for_each agents_binaries service_resume ;;
  current_status <- status_get ;;
  when (String.eqb (fst current_status) (value BLOCKED)
        && String.eqb (snd current_status) UNIT_REMOVED_MSG)
       (status_set ACTIVE "Unit is ready") ;;
  function_set
    [("command", "openstack network agent list");
     ("message", ("Neutron agents started. Use the openstack command"
                  ++ "to verify that agents are registered.")%string)].

Definition remove_from_cloud (args : list string) : M unit :=
  log "Stopping neutron-openvswitch service" (Some DEBUG) ;;
  neutron_client <- get_neutron ;;
  agents <- _get_agents neutron_client ;;
  for_each agents (fun agent =>
    when (admin_state_up agent)
         (function_fail "Consider disabling neutron agents before deletion") ;;
    service_pause (binary agent) ;;
    delete_agent neutron_client (id agent)) ;;
  log "Deleted neutron agents" (Some DEBUG) ;;
  status_set BLOCKED UNIT_REMOVED_MSG ;;
  function_set [("message", UNIT_REMOVED_MSG)].

Definition _run_deferred_hooks : M unit :=
  permitted <- is_restart_permitted ;;
  if negb permitted then
    deferred_hooks <- get_deferred_hooks ;;
    if nonempty deferred_hooks && str_in "config-changed" deferred_hooks then
      config_changed false ;;
      clear_deferred_hook "config-changed"
    else ret tt
  else ret tt.

Definition restart (args : list string) : M unit :=
  deferred_only <- action_get "deferred-only" ;;
  raw_services <- action_get "services" ;;
  services <- py_split raw_services ;;
  if truthy deferred_only && nonempty services then
    action_fail "Cannot set deferred-only and services"
  else if negb (truthy deferred_only || nonempty services) then
    action_fail "Please specify deferred-only or services"
  else
    run_hooks <- action_get "run-hooks" ;;
    when (truthy run_hooks) _run_deferred_hooks ;;
    (if truthy deferred_only
     then restart_services_action (DeferredOnly true)
     else restart_services_action (Services services)) ;;
    configs <- register_configs ;;
    assess_status configs.

Definition run_deferred_hooks (args : list string) : M unit :=
  _run_deferred_hooks ;;
  restart_services_action (DeferredOnly true) ;;
  configs <- register_configs ;;
  assess_status configs.

Definition show_deferred_events (args : list string) : M unit :=
  show_deferred_events_action_helper.

(** The dictionary of all the defined actions. *)
Definition ACTIONS : list (string * (list string -> M unit)) :=
  [ ("disable", disable);
    ("enable", enable);
    ("pause", pause);
    ("resume", resume);
    ("register-to-cloud", register_to_cloud);
    ("remove-from-cloud", remove_from_cloud);
    ("restart-services", restart);
    ("show-deferred-events", show_deferred_events);
    ("run-deferred-hooks", run_deferred_hooks) ].

(** [d[key]]: [None] stands for the KeyError. *)
Fixpoint dict_get {V : Type} (key : string) (d : list (string * V)) : option V :=
  match d with
  | [] => None
  | (k, v) :: r => if String.eqb key k then Some v else dict_get key r
  end.

Definition main (args : list string) : M (option string) :=
  match args with
  | [] => raise (IndexError "list index out of range")
  | argv0 :: _ =>
      let action_name := basename argv0 in
      match dict_get action_name ACTIONS with
      | None =>
          let s := ("Action " ++ action_name ++ " undefined")%string in
          action_fail s ;;
          ret (Some s)
      | Some action =>
          try_except (action args)
            (fun e => action_fail ("Action " ++ action_name ++ " failed: "
                                   ++ exn_str e)%string) ;;
          ret None
      end
  end.

(** ** Vocabulary of the statements *)

(** The state after the calls [cs] have been made and nothing else changed. *)
Definition emit (cs : list Call) (st : State) : State :=
  mkState (trace st ++ cs) (status st) (deferred_hooks st).

(** No external call raises. *)
Definition no_faults (env : Env) : Prop :=
  forall (history : list Call) (c : Call), faults env history c = None.

(** The host identity the unit queries the API with. *)
Definition host_name_of (env : Env) : pyvalue :=
  if truthy (host_info env "use_fqdn_hint")
  then host_info env "host_fqdn"
  else host_info env "host".

(** What the API lists for this host. *)
Definition listed_agents (env : Env) : list Agent :=
  agents_on_host env (host_name_of env).

Definition local_dhcp_and_metadata (env : Env) : bool :=
  truthy (conf env "enable-local-dhcp-and-metadata").

(** The binaries of the unit's role under the current configuration. *)
Definition role_binaries (env : Env) : list string :=
  ["neutron-openvswitch-agent"; "neutron-l3-agent"]
  ++ (if local_dhcp_and_metadata env
      then ["neutron-metadata-agent"; "neutron-dhcp-agent"]
      else []).

Definition relevant_agents (env : Env) : list Agent :=
  filter (fun agent => str_in (binary agent) (role_binaries env))
         (listed_agents env).

(** The calls one run of [_get_agents] makes when none raises. *)
Definition lookup_calls (env : Env) : list Call :=
  [CHostInfoContext; CGetNetworkAgentsOnHost (host_name_of env)]
  ++ (if nonempty (listed_agents env) then []
      else [CLog "No agents registered" (Some WARNING)])
  ++ [CConfig "enable-local-dhcp-and-metadata"].

(** The update calls of a trace, in order. *)
Definition update_calls (t : list Call) : list (string * bool) :=
  flat_map (fun c => match c with
                     | CUpdateAgent i b => [(i, b)]
                     | _ => []
                     end) t.

(** The calls [remove_from_cloud] makes for one agent. *)
Definition removal_calls (agent : Agent) : list Call :=
  (if admin_state_up agent
   then [CFunctionFail "Consider disabling neutron agents before deletion"]
   else [])
  ++ [CServicePause (binary agent); CDeleteAgent (id agent)].

(** The test of [register_to_cloud] on the current status. *)
Definition removed_status (s : string * string) : bool :=
  String.eqb (fst s) (value BLOCKED) && String.eqb (snd s) UNIT_REMOVED_MSG.

Definition registered_result : list (string * string) :=
  [("command", "openstack network agent list");
   ("message", "Neutron agents started. Use the openstack commandto verify that agents are registered.")].

(** The calls of [_set_agents state] when none raises. *)
Definition set_agents_calls (state : bool) (env : Env) : list Call :=
  [CGetNeutron] ++ lookup_calls env
  ++ map (fun agent => CUpdateAgent (id agent) state) (relevant_agents env)
  ++ [CLog ("Set neutron agents to admin_state_up: " ++ str_of_bool state) None].

(** The calls of [remove_from_cloud] when none raises. *)
Definition remove_from_cloud_calls (env : Env) : list Call :=
  [CLog "Stopping neutron-openvswitch service" (Some DEBUG); CGetNeutron]
  ++ lookup_calls env
  ++ flat_map removal_calls (relevant_agents env)
  ++ [CLog "Deleted neutron agents" (Some DEBUG);
      CStatusSet BLOCKED "Neutron agents were removed from the cloud";
      CFunctionSet [("message", "Neutron agents were removed from the cloud")]].

(** The calls of [register_to_cloud] from the state [st] when none raises. *)
Definition register_to_cloud_calls (env : Env) (st : State) : list Call :=
  [CLog "Starting neutron agents" (Some DEBUG);
   CConfig "enable-local-dhcp-and-metadata"]
  ++ map CServiceResume (role_binaries env)
  ++ [CStatusGet]
  ++ (if removed_status (status st)
      then [CStatusSet ACTIVE "Unit is ready"] else [])
  ++ [CFunctionSet registered_result].

(** The calls [_run_deferred_hooks] can make. *)
Definition deferred_hook_calls : list Call :=
  [CIsRestartPermitted; CGetDeferredHooks; CConfigChanged false;
   CClearDeferredHook "config-changed"].

(** The reading of the deferred-hook runner in which a restart that is not
    permitted makes it a no-op (it only asks the event store), and a
    permitted restart makes it replay a deferred config-changed hook. *)
Definition replays_only_when_permitted (env : Env) (st : State) : Prop :=
  (restart_permitted env = false ->
     snd (_run_deferred_hooks env st) = emit [CIsRestartPermitted] st)
  /\ (restart_permitted env = true ->
      In "config-changed" (deferred_hooks st) ->
      In (CConfigChanged false) (trace (snd (_run_deferred_hooks env st)))).

(** Whether the action parameters give an explicit, non-empty service list. *)
Definition services_given (env : Env) : bool :=
  match params env "services" with
  | PStr s => nonempty (str_split s)
  | _ => false
  end.

(** Whether exactly one of deferred-only and an explicit service list is
    given. *)
Definition one_selector (env : Env) : bool :=
  xorb (truthy (params env "deferred-only")) (services_given env).

(** The reading of restart-services in which every invocation that gives both
    selectors or neither ends, without raising, in one reported argument
    error and nothing else. *)
Definition bad_selector_reported (args : list string) (env : Env) (st : State)
  : Prop :=
  one_selector env = false ->
  exists msg : string,
    restart args env st
    = (Ok tt,
       emit [CActionGet "deferred-only"; CActionGet "services";
             CActionFail msg] st).

(** ** Concrete environments and states *)

Definition quiet : list Call -> Call -> option exn := fun _ _ => None.

(** A unit whose assessment always finds it ready. *)
Definition ready_assessment : list Call -> string * string :=
  fun _ => ("active", "Unit is ready").


Definition agent_ovs : Agent :=
  mkAgent "810c64f7" "Open vSwitch agent" "neutron-openvswitch-agent"
          "juju-784de1-ovs-13" true.
Definition agent_dhcp : Agent :=
  mkAgent "03869b4a" "DHCP agent" "neutron-dhcp-agent" "juju-784de1-ovs-13" true.
Definition agent_l3 : Agent :=
  mkAgent "f5bc7b8e" "L3 agent" "neutron-l3-agent" "juju-784de1-ovs-13" false.
Definition agent_other : Agent :=
  mkAgent "0badc0de" "OVN controller" "ovn-controller" "juju-784de1-ovs-13" true.

Definition sample_host_info (key : string) : pyvalue :=
  if String.eqb key "host" then PStr "juju-784de1-ovs-13"
  else if String.eqb key "host_fqdn" then PStr "juju-784de1-ovs-13.project.serverstack"
  else PNone.

Definition sample_registry (h : pyvalue) : list Agent :=
  match h with
  | PStr "juju-784de1-ovs-13" => [agent_ovs; agent_other; agent_dhcp; agent_l3]
  | _ => []
  end.

Definition no_params : string -> pyvalue := fun _ => PNone.

Definition no_config : string -> pyvalue := fun _ => PNone.

(** A unit with auto-restarts disabled (restarts not permitted), nothing
    configured, no action parameter set and no failing collaborator. *)
Definition env_blocked : Env :=
  mkEnv no_params no_config sample_host_info sample_registry false
        "test-config" ["openvswitch-switch"; "neutron-openvswitch-agent"] quiet
        ready_assessment.

(** The same unit with restarts permitted. *)
Definition env_permitted : Env :=
  mkEnv no_params no_config sample_host_info sample_registry true
        "test-config" ["openvswitch-switch"; "neutron-openvswitch-agent"] quiet
        ready_assessment.

(** The same unit whose role helper fails. *)
Definition helper_fails : list Call -> Call -> option exn :=
  fun _ c =>
    match c with
    | CPauseUnitHelper _ _ => Some (Exn "Exception" "Couldn't pause: neutron-l3-agent")
    | CResumeUnitHelper _ _ => Some (Exn "Exception" "Couldn't resume: neutron-l3-agent")
    | _ => None
    end.

Definition env_helper_fails : Env :=
  mkEnv no_params no_config sample_host_info sample_registry true
        "test-config" ["openvswitch-switch"; "neutron-openvswitch-agent"]
        helper_fails
        ready_assessment.


Definition st_fresh : State := mkState [] ("active", "Unit is ready") [].

Definition st_removed : State := mkState [] ("blocked", UNIT_REMOVED_MSG) [].

Definition st_deferred : State :=
  mkState [] ("active", "Unit is ready") ["config-changed"].

(** ** Vocabulary for runs in which collaborators may raise *)

(** Of the calls [cs], made in this order after [history], those that are
    reached: all of them up to and including the first that raises, with the
    fault it raises. *)
Fixpoint executed (env : Env) (history : list Call) (cs : list Call)
  : list Call * option exn :=
  match cs with
  | [] => ([], None)
  | c :: r =>
      match faults env history c with
      | Some e => ([c], Some e)
      | None =>
          let (done, fault) := executed env (history ++ [c]) r in
          (c :: done, fault)
      end
  end.

(** [m] makes the calls [cs], stopping with the fault of the first that
    raises, and goes on as [next] when none does. *)
Definition then_continues {A : Type} (m : M A) (env : Env) (cs : list Call)
    (next : M A) : Prop :=
  forall st,
    m env st
    = match snd (executed env (trace st) cs) with
      | Some e => (Raise e, emit (fst (executed env (trace st) cs)) st)
      | None => next env (emit cs st)
      end.

(** The calls [_run_deferred_hooks] makes from [st] when none raises. *)
Definition quiet_hook_calls (env : Env) (st : State) : list Call :=
  if restart_permitted env then [CIsRestartPermitted]
  else if str_in "config-changed" (deferred_hooks st) then deferred_hook_calls
  else [CIsRestartPermitted; CGetDeferredHooks].

(** The characters of a string. *)
Fixpoint chars (s : string) : list ascii :=
  match s with
  | EmptyString => []
  | String c r => c :: chars r
  end.

(** Every character of the string is an ASCII character. *)
Definition ascii_only (s : string) : bool :=
  forallb (fun c => (nat_of_ascii c <? 128)%nat) (chars s).

(** A service name as [split] yields it: not empty, in ASCII, no blank in
    it. *)
Definition is_token (s : string) : Prop :=
  s <> EmptyString /\ ascii_only s = true
  /\ forall c, In c (chars s) -> isspace c = false.

(** [' '.join(names)] *)
Fixpoint join_blank (names : list string) : string :=
  match names with
  | [] => EmptyString
  | [n] => n
  | n :: r => n ++ String " "%char (join_blank r)
  end.

(** Only the update of the DHCP agent fails. *)
Definition dhcp_update_fails : list Call -> Call -> option exn :=
  fun _ c =>
    match c with
    | CUpdateAgent "03869b4a" _ => Some (Exn "NeutronClientException" "Conflict")
    | _ => None
    end.

Definition dhcp_enabled (key : string) : pyvalue :=
  if String.eqb key "enable-local-dhcp-and-metadata" then PBool true else PNone.

Definition env_update_fails : Env :=
  mkEnv no_params dhcp_enabled sample_host_info sample_registry true
        "test-config" ["openvswitch-switch"; "neutron-openvswitch-agent"]
        dhcp_update_fails
        ready_assessment.

(** Only deleting an agent fails. *)
Definition delete_fails : list Call -> Call -> option exn :=
  fun _ c =>
    match c with
    | CDeleteAgent _ => Some (Exn "NeutronClientException" "Not Found")
    | _ => None
    end.

Definition env_delete_fails : Env :=
  mkEnv no_params no_config sample_host_info sample_registry true
        "test-config" ["openvswitch-switch"; "neutron-openvswitch-agent"]
        delete_fails
        ready_assessment.

(** Only the config-changed handler fails. *)
Definition hook_fails : list Call -> Call -> option exn :=
  fun _ c =>
    match c with
    | CConfigChanged _ => Some (Exn "CalledProcessError" "ovs-vsctl failed")
    | _ => None
    end.

Definition env_hook_fails : Env :=
  mkEnv no_params no_config sample_host_info sample_registry false
        "test-config" ["openvswitch-switch"; "neutron-openvswitch-agent"]
        hook_fails
        ready_assessment.

(** restart-services called with deferred-only and run-hooks set. *)
Definition deferred_only_params (key : string) : pyvalue :=
  if String.eqb key "deferred-only" then PBool true
  else if String.eqb key "services" then PStr ""
  else if String.eqb key "run-hooks" then PBool true
  else PNone.

Definition env_deferred_only : Env :=
  mkEnv deferred_only_params no_config sample_host_info sample_registry false
        "test-config" ["openvswitch-switch"; "neutron-openvswitch-agent"] quiet
        ready_assessment.

(** restart-services called with two services. *)
Definition two_services_params (key : string) : pyvalue :=
  if String.eqb key "services" then PStr "neutron-l3-agent neutron-dhcp-agent"
  else PNone.

Definition env_two_services : Env :=
  mkEnv two_services_params no_config sample_host_info sample_registry false
        "test-config" ["openvswitch-switch"; "neutron-openvswitch-agent"] quiet
        ready_assessment.

(** A unit blocked for a reason of its own. *)
Definition st_unrelated : State :=
  mkState [] ("blocked", "Unrelated reason for blocked status") [].

(** Only resuming a service fails. *)
Definition resume_fails : list Call -> Call -> option exn :=
  fun _ c =>
    match c with
    | CServiceResume _ => Some (Exn "CalledProcessError" "systemctl failed")
    | _ => None
    end.

Definition env_resume_fails : Env :=
  mkEnv no_params no_config sample_host_info sample_registry true
        "test-config" ["openvswitch-switch"; "neutron-openvswitch-agent"]
        resume_fails
        ready_assessment.



(** ** Running the monad *)

Lemma emit_nil (st : State) : emit [] st = st.
Proof. destruct st; unfold emit; simpl; now rewrite app_nil_r. Qed.

Lemma emit_emit (a b : list Call) (st : State) :
  emit b (emit a st) = emit (a ++ b) st.
Proof. unfold emit; simpl; now rewrite app_assoc. Qed.

Lemma emit_write_status (cs : list Call) (s : string * string) (st : State) :
  emit cs (write_status s st) = write_status s (emit cs st).
Proof. reflexivity. Qed.

Lemma call_ok {env : Env} (st : State) (c : Call) :
  no_faults env -> call c env st = (Ok tt, emit [c] st).
Proof. intros H; unfold call; now rewrite H. Qed.

Lemma bind_Ok {A B : Type} {m : M A} (k : A -> M B) {env st a st'} :
  m env st = (Ok a, st') -> bind m k env st = k a env st'.
Proof. intros H; unfold bind; now rewrite H. Qed.

Lemma bind_Raise {A B : Type} {m : M A} (k : A -> M B) {env st e st'} :
  m env st = (Raise e, st') -> bind m k env st = (Raise e, st').
Proof. intros H; unfold bind; now rewrite H. Qed.

(** A loop whose body makes the calls [f x], none of which raises. *)
Lemma for_each_emit {A : Type} (f : A -> list Call) (body : A -> M unit) env :
  (forall x st, body x env st = (Ok tt, emit (f x) st)) ->
  forall l st, for_each l body env st = (Ok tt, emit (flat_map f l) st).
Proof.
  intros Hbody; induction l as [|x r IH]; intros st; simpl.
  - unfold ret; now rewrite emit_nil.
  - rewrite (bind_Ok _ (Hbody x st)), IH, emit_emit; reflexivity.
Qed.

Lemma flat_map_singleton {A B : Type} (f : A -> B) (l : list A) :
  flat_map (fun x => [f x]) l = map f l.
Proof. induction l; simpl; congruence. Qed.

Ltac run H :=
  repeat first
    [ rewrite (call_ok _ _ H)
    | progress (unfold bind, ret, ask, get, modify, when; cbn beta iota) ].

Lemma _get_agents_binaries_ok env st :
  no_faults env ->
  _get_agents_binaries env st
  = (Ok (role_binaries env), emit [CConfig "enable-local-dhcp-and-metadata"] st).
Proof.
  intros H; unfold _get_agents_binaries, config, role_binaries,
    local_dhcp_and_metadata.
  run H. destruct (truthy _); reflexivity.
Qed.

Lemma _get_agents_ok client env st :
  no_faults env ->
  _get_agents client env st
  = (Ok (relevant_agents env), emit (lookup_calls env) st).
Proof.
  intros H; unfold _get_agents.
  unfold HostInfoContext, get_network_agents_on_host, log.
  run H.
  fold (host_name_of env); fold (listed_agents env).
  unfold relevant_agents, lookup_calls.
  destruct (nonempty (listed_agents env)); cbn [negb]; run H;
    rewrite (_get_agents_binaries_ok _ _ H), !emit_emit; reflexivity.
Qed.

Lemma str_in_spec (s : string) (l : list string) :
  str_in s l = true <-> In s l.
Proof.
  unfold str_in; rewrite existsb_exists; split.
  - intros [x [Hx Heq]]; apply String.eqb_eq in Heq; now subst.
  - intros Hin; exists s; split; [assumption | apply String.eqb_refl].
Qed.

(** ** The agent registry accessor *)

(** C7. With no failing collaborator, [_get_agents] returns, in the order of
    the API's answer, exactly the listed agents whose binary is
    neutron-openvswitch-agent or neutron-l3-agent, or, if and only if
    enable-local-dhcp-and-metadata is set, neutron-metadata-agent or
    neutron-dhcp-agent; when the API lists no agent it logs the warning
    "No agents registered" and returns the empty list without raising. *)
Theorem get_agents_filters_by_role (client : unit) (env : Env) (st : State) :
  no_faults env ->
  _get_agents client env st
    = (Ok (relevant_agents env), emit (lookup_calls env) st)
  /\ (forall agent : Agent,
        In agent (relevant_agents env) <->
        In agent (listed_agents env)
        /\ (binary agent = "neutron-openvswitch-agent"
            \/ binary agent = "neutron-l3-agent"
            \/ (local_dhcp_and_metadata env = true
                /\ (binary agent = "neutron-metadata-agent"
                    \/ binary agent = "neutron-dhcp-agent"))))
  /\ (listed_agents env = [] ->
        _get_agents client env st
        = (Ok [],
           emit [CHostInfoContext; CGetNetworkAgentsOnHost (host_name_of env);
                 CLog "No agents registered" (Some WARNING);
                 CConfig "enable-local-dhcp-and-metadata"] st))
  /\ (listed_agents env <> [] ->
        ~ In (CLog "No agents registered" (Some WARNING)) (lookup_calls env)).
Proof.
  intros H; split; [now apply _get_agents_ok|]; split; [|split].
  - intros agent; unfold relevant_agents; rewrite filter_In, str_in_spec.
    unfold role_binaries; destruct (local_dhcp_and_metadata env); simpl;
      intuition congruence.
  - intros Hnil; rewrite (_get_agents_ok _ _ _ H).
    unfold relevant_agents, lookup_calls; rewrite Hnil; reflexivity.
  - intros Hne; unfold lookup_calls.
    destruct (listed_agents env) as [|a l]; [congruence|]; simpl.
    intros [Hc|[Hc|[Hc|[]]]]; discriminate.
Qed.

Lemma get_agents_filters_by_role_witness :
  _get_agents tt env_blocked st_fresh
  = (Ok [agent_ovs; agent_l3],
     emit [CHostInfoContext; CGetNetworkAgentsOnHost (PStr "juju-784de1-ovs-13");
           CConfig "enable-local-dhcp-and-metadata"] st_fresh).
Proof.
  exact (proj1 (get_agents_filters_by_role tt env_blocked st_fresh
                  (fun _ _ => eq_refl))).
Defined.

(** ** The agent state mutator *)

Lemma update_calls_app (a b : list Call) :
  update_calls (a ++ b) = update_calls a ++ update_calls b.
Proof. unfold update_calls; apply flat_map_app. Qed.

Lemma update_calls_lookup (env : Env) : update_calls (lookup_calls env) = [].
Proof. unfold lookup_calls; destruct (nonempty _); reflexivity. Qed.

Lemma update_calls_updates (state : bool) (l : list Agent) :
  update_calls (map (fun agent => CUpdateAgent (id agent) state) l)
  = map (fun agent => (id agent, state)) l.
Proof. induction l as [|a l IH]; simpl; [reflexivity | now rewrite <- IH]. Qed.

Lemma _set_agents_ok state env st :
  no_faults env ->
  _set_agents state env st = (Ok tt, emit (set_agents_calls state env) st).
Proof.
  intros H; unfold _set_agents, get_neutron, log, set_agents_calls.
  run H. rewrite (_get_agents_ok _ _ _ H).
  rewrite (for_each_emit (fun agent => [CUpdateAgent (id agent) state])).
  - run H. rewrite flat_map_singleton, !emit_emit. reflexivity.
  - intros x st0; unfold update_agent; now rewrite (call_ok _ _ H).
Qed.

(** C8. With no failing collaborator, [_set_agents state] makes exactly one
    update call per relevant agent, in order, each setting admin_state_up to
    [state], and no other update call; [disable] is one run of
    [_set_agents False] and [enable] one run of [_set_agents True]. *)
Theorem set_agents_updates_each_agent
    (state : bool) (args : list string) (env : Env) (st : State) :
  no_faults env ->
  _set_agents state env st = (Ok tt, emit (set_agents_calls state env) st)
  /\ update_calls (set_agents_calls state env)
     = map (fun agent => (id agent, state)) (relevant_agents env)
  /\ disable args env st = (Ok tt, emit (set_agents_calls false env) st)
  /\ enable args env st = (Ok tt, emit (set_agents_calls true env) st).
Proof.
  intros H; repeat split.
  - now apply _set_agents_ok.
  - unfold set_agents_calls.
    rewrite !update_calls_app, update_calls_lookup, update_calls_updates.
    simpl; now rewrite app_nil_r.
  - unfold disable; now apply _set_agents_ok.
  - unfold enable; now apply _set_agents_ok.
Qed.

Lemma set_agents_updates_each_agent_witness :
  disable [] env_blocked st_fresh
  = (Ok tt,
     emit [CGetNeutron; CHostInfoContext;
           CGetNetworkAgentsOnHost (PStr "juju-784de1-ovs-13");
           CConfig "enable-local-dhcp-and-metadata";
           CUpdateAgent "810c64f7" false; CUpdateAgent "f5bc7b8e" false;
           CLog "Set neutron agents to admin_state_up: False" None] st_fresh).
Proof.
  exact (proj1 (proj2 (proj2
    (set_agents_updates_each_agent false [] env_blocked st_fresh
       (fun _ _ => eq_refl))))).
Defined.

(** ** remove-from-cloud and register-to-cloud *)

(** C3. With no failing collaborator, [remove_from_cloud] goes through the
    relevant agents in order; for an agent whose admin_state_up is set it
    reports "Consider disabling neutron agents before deletion" through
    function_fail and goes on; for every agent it pauses the agent's binary
    and then deletes the agent; after the loop it sets the status to
    (BLOCKED, "Neutron agents were removed from the cloud") and reports that
    message as the action result. *)
Theorem remove_from_cloud_processes_every_agent
    (args : list string) (env : Env) (st : State) :
  no_faults env ->
  remove_from_cloud args env st
  = (Ok tt,
     write_status ("blocked", "Neutron agents were removed from the cloud")
                  (emit (remove_from_cloud_calls env) st))
  /\ (forall agent : Agent,
        removal_calls agent
        = if admin_state_up agent
          then [CFunctionFail "Consider disabling neutron agents before deletion";
                CServicePause (binary agent); CDeleteAgent (id agent)]
          else [CServicePause (binary agent); CDeleteAgent (id agent)]).
Proof.
  intros H; split.
  - unfold remove_from_cloud, get_neutron, log, status_set, function_set,
      remove_from_cloud_calls.
    run H. rewrite (_get_agents_ok _ _ _ H).
    rewrite (for_each_emit removal_calls).
    + run H. rewrite emit_write_status, !emit_emit.
      unfold write_status, emit; simpl; rewrite <- ?app_assoc; reflexivity.
    + intros x st0; unfold removal_calls, function_fail, service_pause,
        delete_agent.
      destruct (admin_state_up x); run H; rewrite ?emit_emit; reflexivity.
  - intros agent; unfold removal_calls; destruct (admin_state_up agent);
      reflexivity.
Qed.

Lemma remove_from_cloud_processes_every_agent_witness :
  remove_from_cloud [] env_blocked st_fresh
  = (Ok tt,
     mkState
       [CLog "Stopping neutron-openvswitch service" (Some DEBUG); CGetNeutron;
        CHostInfoContext; CGetNetworkAgentsOnHost (PStr "juju-784de1-ovs-13");
        CConfig "enable-local-dhcp-and-metadata";
        CFunctionFail "Consider disabling neutron agents before deletion";
        CServicePause "neutron-openvswitch-agent"; CDeleteAgent "810c64f7";
        CServicePause "neutron-l3-agent"; CDeleteAgent "f5bc7b8e";
        CLog "Deleted neutron agents" (Some DEBUG);
        CStatusSet BLOCKED "Neutron agents were removed from the cloud";
        CFunctionSet [("message", "Neutron agents were removed from the cloud")]]
       ("blocked", "Neutron agents were removed from the cloud") []).
Proof.
  exact (proj1 (remove_from_cloud_processes_every_agent [] env_blocked st_fresh
                  (fun _ _ => eq_refl))).
Defined.

Lemma removed_status_spec (s : string * string) :
  removed_status s = true
  <-> s = ("blocked", "Neutron agents were removed from the cloud").
Proof.
  destruct s as [a b]; unfold removed_status; simpl fst; simpl snd.
  rewrite andb_true_iff, !String.eqb_eq; split.
  - intros [-> ->]; reflexivity.
  - intros Heq; injection Heq as -> ->; split; reflexivity.
Qed.

Lemma register_to_cloud_ok args env st :
  no_faults env ->
  register_to_cloud args env st
  = (Ok tt,
     if removed_status (status st)
     then write_status ("active", "Unit is ready")
                       (emit (register_to_cloud_calls env st) st)
     else emit (register_to_cloud_calls env st) st).
Proof.
  intros H; unfold register_to_cloud, log, status_get, status_set,
    function_set, register_to_cloud_calls.
  run H. rewrite (_get_agents_binaries_ok _ _ H).
  rewrite (for_each_emit (fun b => [CServiceResume b])).
  - run H. cbn [status emit]. fold (removed_status (status st)).
    destruct (removed_status (status st)); run H;
      rewrite ?emit_write_status, !emit_emit, flat_map_singleton;
      reflexivity.
  - intros x st0; unfold service_resume; now rewrite (call_ok _ _ H).
Qed.

(** C4. With no failing collaborator, [register_to_cloud] resumes every
    binary of the role (read from the configuration: no call to the network
    API), then sets the status to (ACTIVE, "Unit is ready") if and only if
    the current status is (BLOCKED, "Neutron agents were removed from the
    cloud"), leaving the status untouched otherwise, and in every case
    reports a result whose command is "openstack network agent list". *)
Theorem register_to_cloud_resets_removed_status
    (args : list string) (env : Env) (st : State) :
  no_faults env ->
  let calls := register_to_cloud_calls env st in
  let after := snd (register_to_cloud args env st) in
  fst (register_to_cloud args env st) = Ok tt
  /\ trace after = trace st ++ calls
  /\ (forall b, In b (role_binaries env) -> In (CServiceResume b) calls)
  /\ (forall c, In c calls ->
        c <> CGetNeutron /\ forall h, c <> CGetNetworkAgentsOnHost h)
  /\ (status st = ("blocked", "Neutron agents were removed from the cloud") ->
        status after = ("active", "Unit is ready")
        /\ In (CStatusSet ACTIVE "Unit is ready") calls)
  /\ (status st <> ("blocked", "Neutron agents were removed from the cloud") ->
        status after = status st
        /\ forall s m, ~ In (CStatusSet s m) calls)
  /\ In (CFunctionSet
           [("command", "openstack network agent list");
            ("message", "Neutron agents started. Use the openstack commandto verify that agents are registered.")])
        calls.
Proof.
  intros H calls after; subst after.
  rewrite (register_to_cloud_ok _ _ _ H); fold calls.
  assert (Hcalls : forall c, In c calls <->
            c = CLog "Starting neutron agents" (Some DEBUG)
            \/ c = CConfig "enable-local-dhcp-and-metadata"
            \/ (exists b, In b (role_binaries env) /\ c = CServiceResume b)
            \/ c = CStatusGet
            \/ (removed_status (status st) = true
                /\ c = CStatusSet ACTIVE "Unit is ready")
            \/ c = CFunctionSet registered_result).
  { intros c; unfold calls, register_to_cloud_calls.
    rewrite !in_app_iff, in_map_iff; simpl.
    destruct (removed_status (status st)); simpl; split;
      intros Hc; decompose [or ex and] Hc; subst; try tauto; try discriminate;
      eauto 8. }
  split; [reflexivity|]. split.
  { destruct (removed_status (status st)); reflexivity. }
  split.
  { intros b Hb; apply Hcalls; eauto 8. }
  split.
  { intros c Hc; apply Hcalls in Hc.
    decompose [or ex and] Hc; subst; split; try intros h; discriminate. }
  split.
  { intros Hst; apply removed_status_spec in Hst; rewrite Hst; split.
    - reflexivity.
    - apply Hcalls; tauto. }
  split.
  { intros Hst.
    assert (Hf : removed_status (status st) = false).
    { destruct (removed_status (status st)) eqn:E; [|reflexivity].
      apply removed_status_spec in E; contradiction. }
    rewrite Hf; split; [reflexivity|].
    intros s m Hc; apply Hcalls in Hc; rewrite Hf in Hc.
    decompose [or ex and] Hc; discriminate. }
  apply Hcalls; repeat right; reflexivity.
Qed.

Lemma register_to_cloud_resets_removed_status_witness :
  status (snd (register_to_cloud [] env_blocked st_removed))
  = ("active", "Unit is ready").
Proof.
  destruct (register_to_cloud_resets_removed_status [] env_blocked st_removed
              (fun _ _ => eq_refl)) as (_ & _ & _ & _ & Hset & _).
  exact (proj1 (Hset eq_refl)).
Defined.

(** ** The deferred-hook runner *)

Lemma remove_hook_In (hook h : string) (hs : list string) :
  In h (remove_hook hook hs) <-> In h hs /\ h <> hook.
Proof.
  unfold remove_hook; rewrite filter_In, negb_true_iff, String.eqb_neq.
  reflexivity.
Qed.

Lemma str_in_false (s : string) (l : list string) :
  str_in s l = false <-> ~ In s l.
Proof.
  rewrite <- str_in_spec; destruct (str_in s l); split; intros; easy.
Qed.

Lemma nonempty_of_In {A : Type} (x : A) (l : list A) :
  In x l -> nonempty l = true.
Proof. destruct l; [intros [] | reflexivity]. Qed.

Ltac hooks_cases :=
  cbn [negb fst snd trace status deferred_hooks record_call
       write_deferred_hooks].

(** Whatever the collaborators do, the runner makes no call outside
    [deferred_hook_calls], keeps the status and clears at most the
    config-changed marker. *)
Lemma _run_deferred_hooks_frame env st :
  exists calls,
    trace (snd (_run_deferred_hooks env st)) = trace st ++ calls
    /\ incl calls deferred_hook_calls
    /\ status (snd (_run_deferred_hooks env st)) = status st
    /\ (forall h, h <> "config-changed" ->
          (In h (deferred_hooks (snd (_run_deferred_hooks env st)))
           <-> In h (deferred_hooks st))).
Proof.
  unfold _run_deferred_hooks, is_restart_permitted, get_deferred_hooks,
    config_changed, clear_deferred_hook, call, bind, ret, ask, get, modify.
  cbn beta iota.
  assert (Hincl : forall l, (forall c, In c l -> In c deferred_hook_calls) ->
                            incl l deferred_hook_calls) by (intros l Hl; exact Hl).
  destruct (faults env (trace st) CIsRestartPermitted); cbn [snd]; hooks_cases.
  { exists [CIsRestartPermitted]; repeat split; try tauto.
    apply Hincl; simpl; intuition. }
  destruct (restart_permitted env); hooks_cases.
  { exists [CIsRestartPermitted]; repeat split; try tauto.
    apply Hincl; simpl; intuition. }
  destruct (faults env _ CGetDeferredHooks); hooks_cases.
  { exists [CIsRestartPermitted; CGetDeferredHooks].
    rewrite <- app_assoc; repeat split; try tauto.
    apply Hincl; simpl; intuition. }
  destruct (nonempty (deferred_hooks st) && str_in "config-changed" (deferred_hooks st));
    hooks_cases.
  2:{ exists [CIsRestartPermitted; CGetDeferredHooks].
      rewrite <- app_assoc; repeat split; try tauto.
      apply Hincl; simpl; intuition. }
  destruct (faults env _ (CConfigChanged false)); hooks_cases.
  { exists [CIsRestartPermitted; CGetDeferredHooks; CConfigChanged false].
    rewrite <- !app_assoc; repeat split; try tauto.
    apply Hincl; simpl; intuition. }
  destruct (faults env _ (CClearDeferredHook "config-changed")); hooks_cases.
  { exists deferred_hook_calls.
    rewrite <- !app_assoc; repeat split; try tauto. apply incl_refl. }
  exists deferred_hook_calls.
  rewrite <- !app_assoc; repeat split; try tauto; try apply incl_refl.
  - intros Hin; apply remove_hook_In in Hin; tauto.
  - intros Hin; apply remove_hook_In; tauto.
Qed.

Lemma _run_deferred_hooks_permitted env st :
  no_faults env -> restart_permitted env = true ->
  _run_deferred_hooks env st = (Ok tt, emit [CIsRestartPermitted] st).
Proof.
  intros H Hp; unfold _run_deferred_hooks, is_restart_permitted.
  run H. rewrite Hp. reflexivity.
Qed.

Lemma _run_deferred_hooks_replay env st :
  no_faults env -> restart_permitted env = false ->
  In "config-changed" (deferred_hooks st) ->
  _run_deferred_hooks env st
  = (Ok tt,
     write_deferred_hooks (remove_hook "config-changed" (deferred_hooks st))
                          (emit deferred_hook_calls st)).
Proof.
  intros H Hp Hin; unfold _run_deferred_hooks, is_restart_permitted,
    get_deferred_hooks, config_changed, clear_deferred_hook.
  run H. rewrite Hp. cbn [negb]. run H. cbn [deferred_hooks emit].
  rewrite (nonempty_of_In _ _ Hin), (proj2 (str_in_spec _ _) Hin).
  cbn [andb]. run H. rewrite !emit_emit. reflexivity.
Qed.

Lemma _run_deferred_hooks_nothing_deferred env st :
  no_faults env -> restart_permitted env = false ->
  ~ In "config-changed" (deferred_hooks st) ->
  _run_deferred_hooks env st
  = (Ok tt, emit [CIsRestartPermitted; CGetDeferredHooks] st).
Proof.
  intros H Hp Hin; unfold _run_deferred_hooks, is_restart_permitted,
    get_deferred_hooks.
  run H. rewrite Hp. cbn [negb]. run H. cbn [deferred_hooks emit].
  rewrite (proj2 (str_in_false _ _) Hin), andb_false_r, !emit_emit.
  reflexivity.
Qed.

(** C1, as the code has it. Whatever the collaborators do,
    [_run_deferred_hooks] makes no call other than the permission query, the
    query of the deferred hooks, config_changed(check_deferred_restarts=False)
    and clear_deferred_hook('config-changed'), and the marker of no other
    hook is set or cleared. With no failing collaborator: when a restart IS
    permitted it only asks the event store; when a restart is NOT permitted
    it queries the deferred hooks and, if config-changed is among them, runs
    the config-changed handler with re-deferral suppressed and then clears
    that marker; if config-changed is not among them it does nothing more. *)
Theorem run_deferred_hooks_replays_when_restart_not_permitted
    (env : Env) (st : State) :
  (exists calls : list Call,
      trace (snd (_run_deferred_hooks env st)) = trace st ++ calls
      /\ (forall c, In c calls ->
            c = CIsRestartPermitted \/ c = CGetDeferredHooks
            \/ c = CConfigChanged false
            \/ c = CClearDeferredHook "config-changed")
      /\ (forall h, h <> "config-changed" ->
            (In h (deferred_hooks (snd (_run_deferred_hooks env st)))
             <-> In h (deferred_hooks st))))
  /\ (no_faults env ->
      (restart_permitted env = true ->
         _run_deferred_hooks env st = (Ok tt, emit [CIsRestartPermitted] st))
      /\ (restart_permitted env = false ->
          In "config-changed" (deferred_hooks st) ->
          _run_deferred_hooks env st
          = (Ok tt,
             write_deferred_hooks
               (remove_hook "config-changed" (deferred_hooks st))
               (emit [CIsRestartPermitted; CGetDeferredHooks;
                      CConfigChanged false;
                      CClearDeferredHook "config-changed"] st))
          /\ ~ In "config-changed"
                 (deferred_hooks (snd (_run_deferred_hooks env st))))
      /\ (restart_permitted env = false ->
          ~ In "config-changed" (deferred_hooks st) ->
          _run_deferred_hooks env st
          = (Ok tt, emit [CIsRestartPermitted; CGetDeferredHooks] st))).
Proof.
  split.
  - destruct (_run_deferred_hooks_frame env st) as (calls & Ht & Hi & _ & Hd).
    exists calls; split; [exact Ht|]; split; [|exact Hd].
    intros c Hc; apply Hi in Hc; simpl in Hc; intuition.
  - intros H; split; [|split].
    + now apply _run_deferred_hooks_permitted.
    + intros Hp Hin; rewrite (_run_deferred_hooks_replay _ _ H Hp Hin).
      split; [reflexivity|].
      cbn [snd write_deferred_hooks deferred_hooks].
      rewrite remove_hook_In; tauto.
    + now apply _run_deferred_hooks_nothing_deferred.
Qed.

Lemma run_deferred_hooks_replays_when_restart_not_permitted_witness :
  _run_deferred_hooks env_blocked st_deferred
  = (Ok tt,
     mkState [CIsRestartPermitted; CGetDeferredHooks; CConfigChanged false;
              CClearDeferredHook "config-changed"]
             ("active", "Unit is ready") []).
Proof.
  destruct (run_deferred_hooks_replays_when_restart_not_permitted
              env_blocked st_deferred) as [_ Hrun].
  destruct (Hrun (fun _ _ => eq_refl)) as (_ & Hreplay & _).
  exact (proj1 (Hreplay eq_refl (or_introl eq_refl))).
Defined.

(** C1 as stated fails on the code: with a restart not permitted and
    config-changed deferred, the runner is not a no-op: it replays the hook
    and clears its marker; with a restart permitted it replays nothing. *)
Lemma run_deferred_hooks_not_noop_when_restart_not_permitted :
  restart_permitted env_blocked = false
  /\ _run_deferred_hooks env_blocked st_deferred
     = (Ok tt,
        mkState [CIsRestartPermitted; CGetDeferredHooks; CConfigChanged false;
                 CClearDeferredHook "config-changed"]
                ("active", "Unit is ready") [])
  /\ restart_permitted env_permitted = true
  /\ _run_deferred_hooks env_permitted st_deferred
     = (Ok tt,
        mkState [CIsRestartPermitted] ("active", "Unit is ready")
                ["config-changed"])
  /\ ~ replays_only_when_permitted env_blocked st_deferred
  /\ ~ replays_only_when_permitted env_permitted st_deferred.
Proof.
  repeat split.
  - intros [Hnoop _]; specialize (Hnoop eq_refl); discriminate Hnoop.
  - intros [_ Hreplay].
    specialize (Hreplay eq_refl (or_introl eq_refl)).
    vm_compute in Hreplay. intuition discriminate.
Qed.

(** ** restart-services: the argument check *)

Lemma _run_deferred_hooks_ok env st :
  no_faults env ->
  exists hooks hs,
    _run_deferred_hooks env st = (Ok tt, write_deferred_hooks hs (emit hooks st))
    /\ incl hooks deferred_hook_calls.
Proof.
  intros H.
  assert (Hid : forall cs, emit cs st
                = write_deferred_hooks (deferred_hooks st) (emit cs st))
    by reflexivity.
  destruct (restart_permitted env) eqn:Hp.
  - exists [CIsRestartPermitted], (deferred_hooks st).
    rewrite <- Hid, (_run_deferred_hooks_permitted _ _ H Hp); split;
      [reflexivity | intros c [<-|[]]; simpl; auto].
  - destruct (str_in "config-changed" (deferred_hooks st)) eqn:Hin.
    + apply str_in_spec in Hin.
      exists deferred_hook_calls,
             (remove_hook "config-changed" (deferred_hooks st)).
      rewrite (_run_deferred_hooks_replay _ _ H Hp Hin); split;
        [reflexivity | apply incl_refl].
    + apply str_in_false in Hin.
      exists [CIsRestartPermitted; CGetDeferredHooks], (deferred_hooks st).
      rewrite <- Hid, (_run_deferred_hooks_nothing_deferred _ _ H Hp Hin); split;
        [reflexivity | intros c [<-|[<-|[]]]; simpl; auto].
Qed.

(** X13. With no failing collaborator and the services parameter present as
    an ASCII string: when deferred-only and a non-empty service list are both
    given, or neither is, [restart] reports one argument error through
    action_fail and returns normally, having made no call other than the two
    parameter reads: no deferred hook is run, no service restarted and the
    status is not reassessed. When exactly one of them is given no argument
    error is reported: the handler goes on to the run-hooks parameter, the
    restart and the status assessment. *)
Theorem restart_rejects_bad_selector
    (args : list string) (env : Env) (st : State) (s : string) :
  no_faults env ->
  params env "services" = PStr s ->
  ascii_only s = true ->
  let deferred_only := truthy (params env "deferred-only") in
  let services := str_split s in
  (xorb deferred_only (nonempty services) = false ->
     restart args env st
     = (Ok tt,
        emit [CActionGet "deferred-only"; CActionGet "services";
              CActionFail (if deferred_only
                           then "Cannot set deferred-only and services"
                           else "Please specify deferred-only or services")]
             st))
  /\ (xorb deferred_only (nonempty services) = true ->
      exists hooks : list Call,
        incl hooks deferred_hook_calls
        /\ fst (restart args env st) = Ok tt
        /\ trace (snd (restart args env st))
           = trace st
             ++ [CActionGet "deferred-only"; CActionGet "services";
                 CActionGet "run-hooks"]
             ++ hooks
             ++ [CRestartServicesAction
                   (if deferred_only then DeferredOnly true
                    else Services services);
                 CRegisterConfigs; CAssessStatus (configs_handle env)]).
Proof.
  intros H Hs _ deferred_only services; subst deferred_only services.
  split; intros Hx; unfold restart, action_get, action_fail.
  - run H. rewrite Hs. unfold py_split. run H.
    destruct (truthy (params env "deferred-only"));
      destruct (nonempty (str_split s)); try discriminate Hx;
      cbn [andb orb negb]; run H; rewrite !emit_emit; reflexivity.
  - run H. rewrite Hs. unfold py_split. run H. rewrite !emit_emit.
    cbn [app].
    set (st2 := emit [CActionGet "deferred-only"; CActionGet "services";
                      CActionGet "run-hooks"] st).
    assert (Hhooks : exists hooks hs,
      (if truthy (params env "run-hooks") then _run_deferred_hooks
       else fun _ st0 => (Ok tt, st0)) env st2
      = (Ok tt, write_deferred_hooks hs (emit hooks st2))
      /\ incl hooks deferred_hook_calls).
    { destruct (truthy (params env "run-hooks")).
      - apply (_run_deferred_hooks_ok env st2 H).
      - exists [], (deferred_hooks st2); rewrite emit_nil; split;
          [destruct st2; reflexivity | intros c []]. }
    destruct Hhooks as (hooks & hs & Hrun & Hincl).
    exists hooks; split; [exact Hincl|].
    unfold restart_services_action, register_configs, assess_status.
    destruct (truthy (params env "deferred-only"));
      destruct (nonempty (str_split s)); try discriminate Hx;
      cbn [andb orb negb]; run H; rewrite emit_emit; cbn [app]; fold st2;
      rewrite Hrun; run H;
      (split; [reflexivity|]);
      cbn [snd trace emit write_deferred_hooks write_status]; subst st2;
      cbn [trace emit]; rewrite <- !app_assoc; reflexivity.
Qed.

Lemma restart_rejects_bad_selector_witness :
  restart [] (mkEnv (fun key => if String.eqb key "services" then PStr "  " else PNone)
                    no_config sample_host_info sample_registry false
                    "test-config" [] quiet ready_assessment) st_fresh
  = (Ok tt,
     emit [CActionGet "deferred-only"; CActionGet "services";
           CActionFail "Please specify deferred-only or services"] st_fresh).
Proof.
  exact (proj1 (restart_rejects_bad_selector []
           (mkEnv (fun key => if String.eqb key "services" then PStr "  " else PNone)
                  no_config sample_host_info sample_registry false
                  "test-config" [] quiet ready_assessment)
           st_fresh "  " (fun _ _ => eq_refl) eq_refl eq_refl) eq_refl).
Defined.

(** C2. The code misses the claim when no parameter is set: neither selector
    holds, yet [restart] does not reach its own check "Please specify
    deferred-only or services"; it raises AttributeError when it tokenizes
    the absent services value, having reported no argument error. *)
Lemma restart_raises_without_services :
  one_selector env_blocked = false
  /\ restart [] env_blocked st_fresh
     = (Raise (Exn "AttributeError" "'NoneType' object has no attribute 'split'"),
        mkState [CActionGet "deferred-only"; CActionGet "services"]
                ("active", "Unit is ready") [])
  /\ ~ bad_selector_reported [] env_blocked st_fresh.
Proof.
  repeat split.
  intros Hclaim; destruct (Hclaim eq_refl) as [msg Hmsg]; discriminate Hmsg.
Qed.

(** ** The dispatcher *)

Lemma dict_get_None {V : Type} (key : string) (d : list (string * V)) :
  dict_get key d = None <-> ~ In key (map fst d).
Proof.
  induction d as [|[k v] d IH]; simpl.
  - tauto.
  - destruct (String.eqb key k) eqn:E.
    + apply String.eqb_eq in E; subst; split; [discriminate | tauto].
    + apply String.eqb_neq in E; rewrite IH; split; [|tauto].
      intros Hn [Hk|Hin]; [congruence | tauto].
Qed.

Lemma main_known argv0 rest handler env st :
  dict_get (basename argv0) ACTIONS = Some handler ->
  main (argv0 :: rest) env st
  = bind (try_except (handler (argv0 :: rest))
            (fun e => action_fail ("Action " ++ basename argv0 ++ " failed: "
                                   ++ exn_str e)))
         (fun _ => ret None) env st.
Proof. intros Hget; unfold main; cbv zeta; now rewrite Hget. Qed.

(** C10. With no failing collaborator, whenever the services parameter is
    absent, [restart] raises AttributeError at the tokenization, before any
    action_fail, and the dispatcher turns that fault into the report
    "Action restart-services failed: 'NoneType' object has no attribute
    'split'" instead of an argument error. *)
Theorem restart_without_services_fails_in_dispatcher
    (argv0 : string) (rest : list string) (env : Env) (st : State) :
  no_faults env ->
  basename argv0 = "restart-services" ->
  params env "services" = PNone ->
  restart (argv0 :: rest) env st
  = (Raise (Exn "AttributeError" "'NoneType' object has no attribute 'split'"),
     emit [CActionGet "deferred-only"; CActionGet "services"] st)
  /\ main (argv0 :: rest) env st
     = (Ok None,
        emit [CActionGet "deferred-only"; CActionGet "services";
              CActionFail "Action restart-services failed: 'NoneType' object has no attribute 'split'"]
             st).
Proof.
  intros H Hname Hs.
  assert (Hrestart :
    restart (argv0 :: rest) env st
    = (Raise (Exn "AttributeError" "'NoneType' object has no attribute 'split'"),
       emit [CActionGet "deferred-only"; CActionGet "services"] st)).
  { unfold restart, action_get. run H. rewrite Hs. unfold py_split, raise.
    rewrite !emit_emit. reflexivity. }
  split; [exact Hrestart|].
  rewrite (main_known argv0 rest restart env st)
    by (rewrite Hname; reflexivity).
  rewrite Hname.
  unfold bind, try_except. rewrite Hrestart. unfold action_fail.
  change ("Action " ++ "restart-services" ++ " failed: "
          ++ exn_str (Exn "AttributeError" "'NoneType' object has no attribute 'split'"))%string
    with "Action restart-services failed: 'NoneType' object has no attribute 'split'".
  rewrite (call_ok _ _ H), emit_emit. reflexivity.
Qed.

Lemma restart_without_services_fails_in_dispatcher_witness :
  main ["actions/restart-services"] env_blocked st_fresh
  = (Ok None,
     mkState [CActionGet "deferred-only"; CActionGet "services";
              CActionFail "Action restart-services failed: 'NoneType' object has no attribute 'split'"]
             ("active", "Unit is ready") []).
Proof.
  exact (proj2 (restart_without_services_fails_in_dispatcher
                  "actions/restart-services" [] env_blocked st_fresh
                  (fun _ _ => eq_refl) eq_refl eq_refl)).
Defined.




(** C6. The registry has nine entries; for every action name outside it the
    dispatcher makes one call, action_fail("Action {name} undefined"), so no
    handler runs, and, unless that report itself raises, it returns that
    string without raising. *)
Theorem main_rejects_unknown_action
    (argv0 : string) (rest : list string) (env : Env) (st : State) :
  ~ In (basename argv0)
       ["disable"; "enable"; "pause"; "resume"; "register-to-cloud";
        "remove-from-cloud"; "restart-services"; "show-deferred-events";
        "run-deferred-hooks"] ->
  let s := ("Action " ++ basename argv0 ++ " undefined")%string in
  map fst ACTIONS
  = ["disable"; "enable"; "pause"; "resume"; "register-to-cloud";
     "remove-from-cloud"; "restart-services"; "show-deferred-events";
     "run-deferred-hooks"]
  /\ snd (main (argv0 :: rest) env st) = emit [CActionFail s] st
  /\ (faults env (trace st) (CActionFail s) = None ->
      main (argv0 :: rest) env st = (Ok (Some s), emit [CActionFail s] st)).
Proof.
  intros Hout s; split; [reflexivity|].
  assert (Hget : dict_get (basename argv0) ACTIONS = None)
    by (apply dict_get_None; exact Hout).
  unfold main; cbv zeta; rewrite Hget; fold s.
  unfold bind, action_fail, call, ret.
  destruct (faults env (trace st) (CActionFail s)); cbn [snd];
    split; try reflexivity; discriminate.
Qed.

Lemma main_rejects_unknown_action_witness :
  main ["actions/foo"] env_blocked st_fresh
  = (Ok (Some "Action foo undefined"),
     mkState [CActionFail "Action foo undefined"] ("active", "Unit is ready") []).
Proof.
  refine (proj2 (proj2
    (main_rejects_unknown_action "actions/foo" [] env_blocked st_fresh _))
    eq_refl).
  simpl; intuition discriminate.
Defined.

(** ** pause and resume *)

(** A loop of single calls, whatever raises: it only makes calls [f x] for
    elements [x] of the list and changes nothing else. *)
Lemma for_each_call_frame {A : Type} (f : A -> Call) (l : list A) env :
  forall st, exists calls,
    snd (for_each l (fun x => call (f x)) env st) = emit calls st
    /\ forall c, In c calls -> exists x, In x l /\ c = f x.
Proof.
  induction l as [|x r IH]; intros st; simpl.
  - exists []; rewrite emit_nil; split; [reflexivity | intros c []].
  - unfold bind at 1, call at 1.
    destruct (faults env (trace st) (f x)); cbn [snd].
    + exists [f x]; split; [reflexivity|].
      intros c [<-|[]]; exists x; auto.
    + destruct (IH (record_call (f x) st)) as (calls & Hs & Hc).
      exists (f x :: calls); rewrite Hs; split.
      * unfold emit, record_call; cbn [trace status deferred_hooks].
        now rewrite <- app_assoc.
      * intros c [<-|Hin]; [exists x; auto|].
        destruct (Hc c Hin) as (y & Hy & ->); exists y; auto.
Qed.

Lemma kept_services_spec (exclude : list string) (env : Env) (s : string) :
  In s (kept_services exclude env) <-> In s (role_services env) /\ ~ In s exclude.
Proof.
  unfold kept_services; rewrite filter_In, negb_true_iff, str_in_false.
  reflexivity.
Qed.

(** The calls a handler that delegates to a role helper can make: the
    registration of the configs, the helper [entry] and [ctl] on services of
    the role other than openvswitch-switch. *)
Lemma delegate_frame (entry : string -> list string -> Call)
    (ctl : string -> Call) env st :
  exists calls,
    snd (bind register_configs
           (fun configs =>
              bind (call (entry configs ["openvswitch-switch"]))
                   (fun _ => bind ask (fun env' =>
                      for_each (kept_services ["openvswitch-switch"] env')
                               (fun x => call (ctl x))))) env st)
    = emit calls st
    /\ forall c, In c calls ->
         c = CRegisterConfigs
         \/ c = entry (configs_handle env) ["openvswitch-switch"]
         \/ exists s, c = ctl s /\ In s (role_services env)
                      /\ s <> "openvswitch-switch".
Proof.
  unfold register_configs, bind, call, ask, ret; cbn beta iota.
  destruct (faults env (trace st) CRegisterConfigs).
  { exists [CRegisterConfigs]; split; [reflexivity|].
    intros c [<-|[]]; auto. }
  destruct (faults env _ (entry _ _)).
  { exists [CRegisterConfigs; entry (configs_handle env) ["openvswitch-switch"]].
    split; [cbn [snd]; unfold emit, record_call; cbn [trace status deferred_hooks];
            now rewrite <- app_assoc|].
    intros c [<-|[<-|[]]]; auto. }
  match goal with
  | |- context [for_each ?l _ env ?s] =>
      destruct (for_each_call_frame ctl l env s) as (calls & Hs & Hc)
  end.
  exists ([CRegisterConfigs; entry (configs_handle env) ["openvswitch-switch"]]
          ++ calls).
  split.
  - etransitivity; [exact Hs|].
    unfold emit, record_call; cbn [trace status deferred_hooks].
    now rewrite <- !app_assoc.
  - intros c Hin; apply in_app_iff in Hin; destruct Hin as [[<-|[<-|[]]]|Hin];
      auto.
    destruct (Hc c Hin) as (s & Hk & ->).
    apply kept_services_spec in Hk; destruct Hk as [Hrole Hex].
    right; right; exists s; repeat split; auto.
    intros ->; apply Hex; left; reflexivity.
Qed.

(** C9. [pause] and [resume] make, after registering the configs, one call to
    the role helper with ['openvswitch-switch'] as its exclusion list, and
    their outcome is the helper's outcome: a fault the helper raises is the
    fault they raise. Whatever the collaborators do, no call pauses or
    resumes openvswitch-switch. *)
Theorem pause_and_resume_exclude_the_switch
    (args : list string) (env : Env) (st : State) :
  (exists calls : list Call,
      snd (pause args env st) = emit calls st
      /\ forall c, In c calls ->
           c = CRegisterConfigs
           \/ c = CPauseUnitHelper (configs_handle env) ["openvswitch-switch"]
           \/ exists s, c = CServicePause s /\ In s (role_services env)
                        /\ s <> "openvswitch-switch")
  /\ (exists calls : list Call,
      snd (resume args env st) = emit calls st
      /\ forall c, In c calls ->
           c = CRegisterConfigs
           \/ c = CResumeUnitHelper (configs_handle env) ["openvswitch-switch"]
           \/ exists s, c = CServiceResume s /\ In s (role_services env)
                        /\ s <> "openvswitch-switch")
  /\ (faults env (trace st) CRegisterConfigs = None ->
      pause args env st
      = pause_unit_helper (configs_handle env) ["openvswitch-switch"] env
                          (emit [CRegisterConfigs] st)
      /\ resume args env st
         = resume_unit_helper (configs_handle env) ["openvswitch-switch"] env
                              (emit [CRegisterConfigs] st)
      /\ (faults env (trace st ++ [CRegisterConfigs])
                 (CPauseUnitHelper (configs_handle env) ["openvswitch-switch"])
          = None ->
          exists calls,
            trace (snd (pause args env st))
            = trace st ++ CRegisterConfigs
              :: CPauseUnitHelper (configs_handle env) ["openvswitch-switch"]
              :: calls)
      /\ (faults env (trace st ++ [CRegisterConfigs])
                 (CResumeUnitHelper (configs_handle env) ["openvswitch-switch"])
          = None ->
          exists calls,
            trace (snd (resume args env st))
            = trace st ++ CRegisterConfigs
              :: CResumeUnitHelper (configs_handle env) ["openvswitch-switch"]
              :: calls)).
Proof.
  split; [exact (delegate_frame CPauseUnitHelper CServicePause env st)|].
  split; [exact (delegate_frame CResumeUnitHelper CServiceResume env st)|].
  intros Hreg.
  assert (Hcfg : register_configs env st
                 = (Ok (configs_handle env), emit [CRegisterConfigs] st)).
  { unfold register_configs, bind, call, ask, ret; now rewrite Hreg. }
  split; [unfold pause; now rewrite (bind_Ok _ Hcfg)|].
  split; [unfold resume; now rewrite (bind_Ok _ Hcfg)|].
  split; intros Hentry.
  - unfold pause; rewrite (bind_Ok _ Hcfg).
    unfold pause_unit_helper, bind at 1, call at 1.
    cbn [emit trace]; rewrite Hentry.
    unfold bind at 1, ask.
    match goal with
    | |- context [for_each ?l _ env ?s] =>
        destruct (for_each_call_frame CServicePause l env s) as (calls & Hs & _)
    end.
    exists calls. unfold service_pause.
    etransitivity; [apply (f_equal trace Hs)|].
    cbn [emit record_call trace]; now rewrite <- !app_assoc.
  - unfold resume; rewrite (bind_Ok _ Hcfg).
    unfold resume_unit_helper, bind at 1, call at 1.
    cbn [emit trace]; rewrite Hentry.
    unfold bind at 1, ask.
    match goal with
    | |- context [for_each ?l _ env ?s] =>
        destruct (for_each_call_frame CServiceResume l env s) as (calls & Hs & _)
    end.
    exists calls. unfold service_resume.
    etransitivity; [apply (f_equal trace Hs)|].
    cbn [emit record_call trace]; now rewrite <- !app_assoc.
Qed.

Lemma pause_and_resume_exclude_the_switch_witness :
  pause [] env_helper_fails st_fresh
  = (Raise (Exn "Exception" "Couldn't pause: neutron-l3-agent"),
     mkState [CRegisterConfigs;
              CPauseUnitHelper "test-config" ["openvswitch-switch"]]
             ("active", "Unit is ready") [])
  /\ resume [] env_blocked st_fresh
     = (Ok tt,
        mkState [CRegisterConfigs;
                 CResumeUnitHelper "test-config" ["openvswitch-switch"];
                 CServiceResume "neutron-openvswitch-agent"]
                ("active", "Unit is ready") []).
Proof.
  split.
  - exact (proj1 (proj2 (proj2
      (pause_and_resume_exclude_the_switch [] env_helper_fails st_fresh))
      eq_refl)).
  - exact (proj1 (proj2 (proj2 (proj2
      (pause_and_resume_exclude_the_switch [] env_blocked st_fresh))
      eq_refl))).
Defined.

(** ** Runs in which collaborators may raise *)

Lemma executed_quiet env history cs :
  snd (executed env history cs) = None -> fst (executed env history cs) = cs.
Proof.
  revert history; induction cs as [|c r IH]; intros history; simpl.
  - reflexivity.
  - destruct (faults env history c); [discriminate|].
    specialize (IH (history ++ [c])).
    destruct (executed env (history ++ [c]) r) as [done fault]; simpl in *.
    intros Hf; now rewrite IH.
Qed.

Lemma executed_app env history a b :
  executed env history (a ++ b)
  = match snd (executed env history a) with
    | Some e => executed env history a
    | None =>
        (a ++ fst (executed env (history ++ a) b),
         snd (executed env (history ++ a) b))
    end.
Proof.
  revert history; induction a as [|c r IH]; intros history; simpl.
  - rewrite app_nil_r; now destruct (executed env history b).
  - destruct (faults env history c); [reflexivity|].
    rewrite IH.
    destruct (executed env (history ++ [c]) r) as [done [e|]]; simpl.
    + reflexivity.
    + now rewrite <- app_assoc.
Qed.

(** The calls made are a prefix of the calls planned. *)
Lemma executed_prefix env history cs :
  exists rest, cs = fst (executed env history cs) ++ rest.
Proof.
  revert history; induction cs as [|c r IH]; intros history; simpl.
  - exists []; reflexivity.
  - destruct (faults env history c).
    + exists r; reflexivity.
    + destruct (IH (history ++ [c])) as [rest Hrest].
      destruct (executed env (history ++ [c]) r) as [done fault]; simpl in *.
      exists rest; now rewrite <- Hrest.
Qed.

Lemma executed_no_faults env history cs :
  no_faults env -> executed env history cs = (cs, None).
Proof.
  intros H; revert history; induction cs as [|c r IH]; intros history; simpl.
  - reflexivity.
  - now rewrite H, IH.
Qed.

(** When only the call [c] can raise, the run stops at its first
    occurrence. *)
Lemma executed_first_fault env history pre c post e :
  (forall h c', c' <> c -> faults env h c' = None) ->
  (forall h, faults env h c = Some e) ->
  ~ In c pre ->
  executed env history (pre ++ c :: post) = (pre ++ [c], Some e).
Proof.
  intros Hother Hc; revert history; induction pre as [|x pre IH];
    intros history Hnotin; simpl.
  - now rewrite Hc.
  - rewrite Hother by (intros ->; apply Hnotin; left; reflexivity).
    rewrite IH by (intros Hin; apply Hnotin; right; exact Hin).
    reflexivity.
Qed.

Lemma continues_ret {A : Type} (v : A) env :
  then_continues (ret v) env [] (ret v).
Proof. intros st; simpl; unfold ret; now rewrite emit_nil. Qed.

Lemma continues_here {A : Type} (m : M A) env : then_continues m env [] m.
Proof. intros st; simpl; now rewrite emit_nil. Qed.

Lemma continues_call env c : then_continues (call c) env [c] (ret tt).
Proof.
  intros st; unfold call; simpl.
  destruct (faults env (trace st) c); reflexivity.
Qed.

Lemma continues_bind {A B : Type} (m : M A) (k : A -> M B) env cs cs' v next :
  then_continues m env cs (ret v) ->
  then_continues (k v) env cs' next ->
  then_continues (bind m k) env (cs ++ cs') next.
Proof.
  intros Hm Hk st; unfold bind; rewrite Hm, executed_app.
  destruct (snd (executed env (trace st) cs)) as [e|] eqn:Hf.
  - rewrite Hf; reflexivity.
  - unfold ret; rewrite Hk; cbn [trace emit fst snd].
    destruct (snd (executed env (trace st ++ cs) cs')); rewrite emit_emit;
      reflexivity.
Qed.

Lemma continues_query {A : Type} (c : Call) (f : Env -> A) env :
  then_continues (bind (call c) (fun _ => bind ask (fun env' => ret (f env'))))
                 env [c] (ret (f env)).
Proof.
  intros st; unfold bind, call, ask, ret; simpl.
  destruct (faults env (trace st) c); reflexivity.
Qed.

Lemma continues_for_each {A : Type} (f : A -> list Call) (body : A -> M unit)
    env (l : list A) :
  (forall x, then_continues (body x) env (f x) (ret tt)) ->
  then_continues (for_each l body) env (flat_map f l) (ret tt).
Proof.
  intros Hbody; induction l as [|x r IH]; simpl.
  - apply continues_ret.
  - apply continues_bind with (v := tt); [apply Hbody | exact IH].
Qed.

Lemma continues_calls {A : Type} (m : M A) env cs cs' next :
  then_continues m env cs next -> cs = cs' -> then_continues m env cs' next.
Proof. now intros H <-. Qed.

Lemma _get_agents_binaries_continues env :
  then_continues _get_agents_binaries env
    [CConfig "enable-local-dhcp-and-metadata"] (ret (role_binaries env)).
Proof.
  unfold _get_agents_binaries, config.
  apply continues_calls
    with (cs := [CConfig "enable-local-dhcp-and-metadata"] ++ []);
    [|reflexivity].
  apply continues_bind with (v := conf env "enable-local-dhcp-and-metadata").
  - apply (continues_query _ (fun env' => conf env' _)).
  - unfold role_binaries, local_dhcp_and_metadata.
    destruct (truthy _); apply continues_ret.
Qed.

Lemma _get_agents_continues client env :
  then_continues (_get_agents client) env (lookup_calls env)
                 (ret (relevant_agents env)).
Proof.
  unfold _get_agents, lookup_calls.
  apply continues_calls with
    (cs := [CHostInfoContext]
           ++ [CGetNetworkAgentsOnHost (host_name_of env)]
           ++ (if nonempty (listed_agents env) then []
               else [CLog "No agents registered" (Some WARNING)])
           ++ [CConfig "enable-local-dhcp-and-metadata"] ++ []);
    [|now rewrite app_nil_r].
  apply continues_bind with (v := host_info env).
  { apply (continues_query _ host_info). }
  fold (host_name_of env).
  apply continues_bind with (v := listed_agents env).
  { apply (continues_query _ (fun env' => agents_on_host env' _)). }
  apply continues_bind with (v := tt).
  { unfold when, log; destruct (nonempty (listed_agents env)); cbn [negb];
      [apply continues_ret | apply continues_call]. }
  apply continues_bind with (v := role_binaries env).
  { apply _get_agents_binaries_continues. }
  apply continues_ret.
Qed.

Lemma _set_agents_continues state env :
  then_continues (_set_agents state) env (set_agents_calls state env) (ret tt).
Proof.
  unfold _set_agents, set_agents_calls.
  apply continues_bind with (v := tt); [apply continues_call|].
  apply continues_bind with (v := relevant_agents env);
    [apply _get_agents_continues|].
  apply continues_bind with (v := tt).
  { rewrite <- flat_map_singleton.
    apply continues_for_each; intros x; apply continues_call. }
  apply continues_call.
Qed.

Lemma executed_all_quiet env history cs :
  (forall h c, In c cs -> faults env h c = None) ->
  executed env history cs = (cs, None).
Proof.
  revert history; induction cs as [|c r IH]; intros history Hq; simpl.
  - reflexivity.
  - rewrite Hq by (left; reflexivity).
    rewrite IH by (intros h c' Hin; apply Hq; right; exact Hin).
    reflexivity.
Qed.

Lemma continues_run {A : Type} (m : M A) env cs v st :
  then_continues m env cs (ret v) ->
  m env st
  = (match snd (executed env (trace st) cs) with
     | Some e => Raise e
     | None => Ok v
     end,
     emit (fst (executed env (trace st) cs)) st).
Proof.
  intros Hm; rewrite Hm.
  destruct (snd (executed env (trace st) cs)) eqn:Hf; [reflexivity|].
  unfold ret; now rewrite (executed_quiet _ _ _ Hf).
Qed.

(** X1. Whatever the collaborators do, [_set_agents] makes the calls of its
    fault-free run up to and including the first call that raises, and raises
    that fault: there is no rollback and no retry. In particular, when the
    update of one agent raises after the calls before it succeeded, the
    agents after it get no update call and the closing log line is not
    written. *)
Theorem set_agents_stops_at_first_fault
    (state : bool) (env : Env) (st : State) :
  _set_agents state env st
  = (match snd (executed env (trace st) (set_agents_calls state env)) with
     | Some e => Raise e
     | None => Ok tt
     end,
     emit (fst (executed env (trace st) (set_agents_calls state env))) st)
  /\ (forall (before after : list Agent) (agent : Agent) (e : exn),
        relevant_agents env = before ++ agent :: after ->
        let calls_before :=
          [CGetNeutron] ++ lookup_calls env
          ++ map (fun a => CUpdateAgent (id a) state) before in
        (forall h c, In c calls_before -> faults env h c = None) ->
        faults env (trace st ++ calls_before) (CUpdateAgent (id agent) state)
        = Some e ->
        _set_agents state env st
        = (Raise e,
           emit (calls_before ++ [CUpdateAgent (id agent) state]) st)).
Proof.
  split; [apply continues_run, _set_agents_continues|].
  intros before after agent e Hrel calls_before Hquiet Hfault.
  rewrite (continues_run _ _ _ _ st (_set_agents_continues state env)).
  assert (Hcalls : set_agents_calls state env
                   = calls_before
                     ++ CUpdateAgent (id agent) state
                        :: (map (fun a => CUpdateAgent (id a) state) after
                            ++ [CLog ("Set neutron agents to admin_state_up: "
                                      ++ str_of_bool state) None])).
  { unfold set_agents_calls, calls_before; rewrite Hrel, map_app; simpl.
    now rewrite <- !app_assoc. }
  rewrite Hcalls, executed_app, (executed_all_quiet _ _ _ Hquiet).
  cbn [fst snd executed]. rewrite Hfault. reflexivity.
Qed.

Lemma set_agents_stops_at_first_fault_witness :
  _set_agents false env_update_fails st_fresh
  = (Raise (Exn "NeutronClientException" "Conflict"),
     mkState [CGetNeutron; CHostInfoContext;
              CGetNetworkAgentsOnHost (PStr "juju-784de1-ovs-13");
              CConfig "enable-local-dhcp-and-metadata";
              CUpdateAgent "810c64f7" false; CUpdateAgent "03869b4a" false]
             ("active", "Unit is ready") []).
Proof.
  refine (proj2 (set_agents_stops_at_first_fault false env_update_fails st_fresh)
            [agent_ovs] [agent_l3] agent_dhcp
            (Exn "NeutronClientException" "Conflict") eq_refl _ eq_refl).
  intros h c Hin; simpl in Hin.
  repeat (destruct Hin as [<-|Hin]; [reflexivity|]); destruct Hin.
Defined.

Lemma remove_from_cloud_continues args env :
  then_continues (remove_from_cloud args) env
    ([CLog "Stopping neutron-openvswitch service" (Some DEBUG); CGetNeutron]
     ++ lookup_calls env
     ++ flat_map removal_calls (relevant_agents env)
     ++ [CLog "Deleted neutron agents" (Some DEBUG)])
    (bind (status_set BLOCKED UNIT_REMOVED_MSG)
          (fun _ => function_set [("message", UNIT_REMOVED_MSG)])).
Proof.
  unfold remove_from_cloud.
  apply continues_calls with
    (cs := [CLog "Stopping neutron-openvswitch service" (Some DEBUG)]
           ++ [CGetNeutron] ++ lookup_calls env
           ++ flat_map removal_calls (relevant_agents env)
           ++ [CLog "Deleted neutron agents" (Some DEBUG)] ++ []);
    [|now rewrite app_nil_r].
  apply continues_bind with (v := tt); [apply continues_call|].
  apply continues_bind with (v := tt); [apply continues_call|].
  apply continues_bind with (v := relevant_agents env);
    [apply _get_agents_continues|].
  apply continues_bind with (v := tt).
  { apply continues_for_each; intros x.
    unfold removal_calls, when, function_fail, service_pause, delete_agent.
    apply continues_bind with (v := tt).
    { destruct (admin_state_up x); [apply continues_call | apply continues_ret]. }
    apply continues_bind with (cs := [CServicePause (binary x)])
                              (cs' := [CDeleteAgent (id x)]) (v := tt);
      apply continues_call. }
  apply continues_bind with (v := tt); [apply continues_call|].
  apply continues_here.
Qed.

Lemma remove_from_cloud_calls_split env :
  remove_from_cloud_calls env
  = ([CLog "Stopping neutron-openvswitch service" (Some DEBUG); CGetNeutron]
     ++ lookup_calls env
     ++ flat_map removal_calls (relevant_agents env)
     ++ [CLog "Deleted neutron agents" (Some DEBUG)])
    ++ [CStatusSet BLOCKED UNIT_REMOVED_MSG;
        CFunctionSet [("message", UNIT_REMOVED_MSG)]].
Proof.
  unfold remove_from_cloud_calls; cbn [app]; rewrite <- !app_assoc.
  reflexivity.
Qed.

(** X2. Whatever the collaborators do, [remove_from_cloud] makes the calls of
    its fault-free run up to and including the first call that raises and
    raises that fault. The unit status is written only as the last step but
    one: either it is left as it was, or it is (blocked, "Neutron agents were
    removed from the cloud") and every call of the fault-free run, so the
    pause and the deletion of every relevant agent, has been made. A run
    that returns normally always ends in that status. *)
Theorem remove_from_cloud_sets_status_last
    (args : list string) (env : Env) (st : State) :
  let after := snd (remove_from_cloud args env st) in
  let ran := executed env (trace st) (remove_from_cloud_calls env) in
  fst (remove_from_cloud args env st)
  = match snd ran with Some e => Raise e | None => Ok tt end
  /\ trace after = trace st ++ fst ran
  /\ deferred_hooks after = deferred_hooks st
  /\ (status after = status st
      \/ (status after = ("blocked", "Neutron agents were removed from the cloud")
          /\ trace after = trace st ++ remove_from_cloud_calls env))
  /\ (fst (remove_from_cloud args env st) = Ok tt ->
      status after = ("blocked", "Neutron agents were removed from the cloud")).
Proof.
  cbv zeta.
  pose proof (remove_from_cloud_continues args env st) as Hrun.
  rewrite remove_from_cloud_calls_split.
  set (cs1 := [CLog "Stopping neutron-openvswitch service" (Some DEBUG);
               CGetNeutron]
              ++ lookup_calls env
              ++ flat_map removal_calls (relevant_agents env)
              ++ [CLog "Deleted neutron agents" (Some DEBUG)]) in *.
  clearbody cs1. rewrite Hrun, executed_app. clear Hrun.
  destruct (snd (executed env (trace st) cs1)) as [e|] eqn:Hf.
  { rewrite Hf; cbn [fst snd emit trace status deferred_hooks].
    repeat split; auto; discriminate. }
  unfold status_set, function_set, bind, call, modify.
  cbn [fst snd emit trace status deferred_hooks executed].
  destruct (faults env (trace st ++ cs1) (CStatusSet BLOCKED UNIT_REMOVED_MSG))
    as [e|].
  { cbn [fst snd emit trace status deferred_hooks record_call].
    rewrite <- app_assoc; repeat split; auto; discriminate. }
  cbn [fst snd emit trace status deferred_hooks record_call write_status].
  destruct (faults env ((trace st ++ cs1) ++ [CStatusSet BLOCKED UNIT_REMOVED_MSG])
                   (CFunctionSet [("message", UNIT_REMOVED_MSG)])) as [e|];
    cbn [fst snd emit trace status deferred_hooks record_call write_status];
    rewrite <- !app_assoc; cbn [app];
    repeat split; auto; right; split; reflexivity.
Qed.

Lemma remove_from_cloud_sets_status_last_witness :
  fst (remove_from_cloud [] env_delete_fails st_fresh)
  = Raise (Exn "NeutronClientException" "Not Found")
  /\ trace (snd (remove_from_cloud [] env_delete_fails st_fresh))
     = [CLog "Stopping neutron-openvswitch service" (Some DEBUG); CGetNeutron;
        CHostInfoContext; CGetNetworkAgentsOnHost (PStr "juju-784de1-ovs-13");
        CConfig "enable-local-dhcp-and-metadata";
        CFunctionFail "Consider disabling neutron agents before deletion";
        CServicePause "neutron-openvswitch-agent"; CDeleteAgent "810c64f7"].
Proof.
  destruct (remove_from_cloud_sets_status_last [] env_delete_fails st_fresh)
    as (Hres & Htrace & _).
  split; [exact Hres | exact Htrace].
Defined.

Lemma register_to_cloud_continues args env :
  then_continues (register_to_cloud args) env
    ([CLog "Starting neutron agents" (Some DEBUG);
      CConfig "enable-local-dhcp-and-metadata"]
     ++ map CServiceResume (role_binaries env))
    (bind status_get (fun current_status =>
       bind (when (String.eqb (fst current_status) (value BLOCKED)
                   && String.eqb (snd current_status) UNIT_REMOVED_MSG)
                  (status_set ACTIVE "Unit is ready"))
            (fun _ =>
               function_set
                 [("command", "openstack network agent list");
                  ("message",
                   ("Neutron agents started. Use the openstack command"
                    ++ "to verify that agents are registered.")%string)]))).
Proof.
  unfold register_to_cloud.
  apply continues_calls with
    (cs := [CLog "Starting neutron agents" (Some DEBUG)]
           ++ [CConfig "enable-local-dhcp-and-metadata"]
           ++ map CServiceResume (role_binaries env) ++ []);
    [|now rewrite app_nil_r].
  apply continues_bind with (v := tt); [apply continues_call|].
  apply continues_bind with (v := role_binaries env);
    [apply _get_agents_binaries_continues|].
  apply continues_bind with (v := tt).
  { rewrite <- flat_map_singleton.
    apply continues_for_each; intros x; apply continues_call. }
  apply continues_here.
Qed.

(** X3. Whatever the collaborators do, [register_to_cloud] never overwrites
    a status other than (blocked, "Neutron agents were removed from the
    cloud"): such a status is left as it was, also when a call raises. The
    only status it ever writes is (active, "Unit is ready"), and a run that
    returns normally from the removed status has written it. *)
Theorem register_to_cloud_keeps_unrelated_status
    (args : list string) (env : Env) (st : State) :
  let after := snd (register_to_cloud args env st) in
  (status st <> ("blocked", "Neutron agents were removed from the cloud") ->
     status after = status st)
  /\ (status after = status st \/ status after = ("active", "Unit is ready"))
  /\ (fst (register_to_cloud args env st) = Ok tt ->
      status st = ("blocked", "Neutron agents were removed from the cloud") ->
      status after = ("active", "Unit is ready"))
  /\ deferred_hooks after = deferred_hooks st.
Proof.
  cbv zeta.
  rewrite (register_to_cloud_continues args env st).
  set (cs1 := [CLog "Starting neutron agents" (Some DEBUG);
               CConfig "enable-local-dhcp-and-metadata"]
              ++ map CServiceResume (role_binaries env)).
  clearbody cs1.
  destruct (snd (executed env (trace st) cs1)) as [e|].
  { cbn [fst snd emit status deferred_hooks]; repeat split; auto; discriminate. }
  unfold status_get, status_set, function_set, when, bind, call, get, modify,
    ret.
  cbn [snd fst emit trace status deferred_hooks].
  destruct (faults env (trace st ++ cs1) CStatusGet) as [e|].
  { cbn [fst snd record_call status deferred_hooks]; repeat split; auto;
      discriminate. }
  cbn [fst snd record_call status deferred_hooks].
  change (status (emit cs1 st)) with (status st).
  destruct (removed_status (status st)) eqn:Hrem;
    pose proof Hrem as Hcond; unfold removed_status in Hcond; rewrite Hcond;
    clear Hcond.
  - apply removed_status_spec in Hrem.
    cbn [trace].
    destruct (faults env _ (CStatusSet ACTIVE "Unit is ready")) as [e|].
    { cbn [fst snd record_call status deferred_hooks]; repeat split; auto;
        discriminate. }
    cbn [fst snd record_call write_status status deferred_hooks trace].
    destruct (faults env _ (CFunctionSet _)) as [e|];
      cbn [fst snd record_call write_status status deferred_hooks];
      repeat split; auto; contradiction.
  - assert (Hne : status st
                  <> ("blocked", "Neutron agents were removed from the cloud")).
    { intros Heq; apply removed_status_spec in Heq; congruence. }
    cbn [trace].
    destruct (faults env _ (CFunctionSet _)) as [e|];
      cbn [fst snd record_call write_status status deferred_hooks];
      repeat split; auto; contradiction.
Qed.

Lemma register_to_cloud_keeps_unrelated_status_witness :
  status (snd (register_to_cloud [] env_resume_fails st_unrelated))
  = ("blocked", "Unrelated reason for blocked status").
Proof.
  refine (proj1 (register_to_cloud_keeps_unrelated_status
                   [] env_resume_fails st_unrelated) _).
  simpl; discriminate.
Defined.

Lemma remove_from_cloud_quiet args env st :
  no_faults env ->
  remove_from_cloud args env st
  = (Ok tt,
     write_status ("blocked", "Neutron agents were removed from the cloud")
                  (emit (remove_from_cloud_calls env) st)).
Proof.
  intros H; rewrite (remove_from_cloud_continues args env st).
  rewrite executed_no_faults by exact H; cbn [snd].
  unfold status_set, function_set. run H.
  rewrite emit_write_status, !emit_emit, remove_from_cloud_calls_split.
  rewrite <- !app_assoc; reflexivity.
Qed.

(** X4. With no failing collaborator, [register_to_cloud] reverts the status
    that [remove_from_cloud] leaves: after remove-from-cloud the status is
    (blocked, "Neutron agents were removed from the cloud") whatever it was,
    after register-to-cloud it is (active, "Unit is ready"), and running
    register-to-cloud once more resumes the services again but makes no
    status_set call and leaves that status. *)
Theorem register_to_cloud_reverts_remove_from_cloud
    (args1 args2 args3 : list string) (env : Env) (st : State) :
  no_faults env ->
  let st1 := snd (remove_from_cloud args1 env st) in
  let st2 := snd (register_to_cloud args2 env st1) in
  let st3 := snd (register_to_cloud args3 env st2) in
  status st1 = ("blocked", "Neutron agents were removed from the cloud")
  /\ status st2 = ("active", "Unit is ready")
  /\ In (CStatusSet ACTIVE "Unit is ready") (register_to_cloud_calls env st1)
  /\ trace st2 = trace st1 ++ register_to_cloud_calls env st1
  /\ status st3 = ("active", "Unit is ready")
  /\ trace st3
     = trace st2
       ++ [CLog "Starting neutron agents" (Some DEBUG);
           CConfig "enable-local-dhcp-and-metadata"]
       ++ map CServiceResume (role_binaries env)
       ++ [CStatusGet; CFunctionSet registered_result].
Proof.
  intros H st1 st2 st3.
  assert (H1 : status st1
               = ("blocked", "Neutron agents were removed from the cloud")).
  { subst st1; now rewrite (remove_from_cloud_quiet _ _ _ H). }
  assert (Hr1 : removed_status (status st1) = true) by now rewrite H1.
  assert (E2 : st2 = write_status ("active", "Unit is ready")
                       (emit (register_to_cloud_calls env st1) st1)).
  { subst st2; now rewrite (register_to_cloud_ok _ _ _ H), Hr1. }
  assert (H2 : status st2 = ("active", "Unit is ready"))
    by now rewrite E2.
  assert (Hr2 : removed_status (status st2) = false) by now rewrite H2.
  assert (E3 : st3 = emit (register_to_cloud_calls env st2) st2).
  { subst st3; now rewrite (register_to_cloud_ok _ _ _ H), Hr2. }
  split; [exact H1|]. split; [exact H2|]. split.
  { unfold register_to_cloud_calls; rewrite Hr1, !in_app_iff; simpl; tauto. }
  split; [now rewrite E2|]. split.
  { now rewrite E3. }
  rewrite E3; unfold register_to_cloud_calls; rewrite Hr2; reflexivity.
Qed.

Lemma register_to_cloud_reverts_remove_from_cloud_witness :
  status (snd (register_to_cloud []
                 env_blocked (snd (remove_from_cloud [] env_blocked st_unrelated))))
  = ("active", "Unit is ready").
Proof.
  exact (proj1 (proj2 (register_to_cloud_reverts_remove_from_cloud
                         [] [] [] env_blocked st_unrelated
                         (fun _ _ => eq_refl)))).
Defined.

(** X5. Whatever the collaborators do, a run of [_run_deferred_hooks] that
    raises clears no marker: the deferred hooks are as they were, so a
    config-changed hook whose replay failed stays deferred. The markers only
    change in a run that made all four calls and returned normally. *)
Theorem run_deferred_hooks_failure_keeps_markers (env : Env) (st : State) :
  let after := snd (_run_deferred_hooks env st) in
  (forall e, fst (_run_deferred_hooks env st) = Raise e ->
     deferred_hooks after = deferred_hooks st)
  /\ (deferred_hooks after = deferred_hooks st
      \/ (fst (_run_deferred_hooks env st) = Ok tt
          /\ restart_permitted env = false
          /\ trace after = trace st ++ deferred_hook_calls
          /\ deferred_hooks after
             = remove_hook "config-changed" (deferred_hooks st))).
Proof.
  unfold _run_deferred_hooks, is_restart_permitted, get_deferred_hooks,
    config_changed, clear_deferred_hook, call, bind, ret, ask, get, modify.
  cbn beta iota zeta.
  destruct (faults env (trace st) CIsRestartPermitted); hooks_cases;
    [repeat split; auto|].
  destruct (restart_permitted env) eqn:Hp; hooks_cases; [repeat split; auto|].
  destruct (faults env _ CGetDeferredHooks); hooks_cases;
    [repeat split; auto|].
  destruct (nonempty (deferred_hooks st)
            && str_in "config-changed" (deferred_hooks st));
    hooks_cases; [|repeat split; auto].
  destruct (faults env _ (CConfigChanged false)); hooks_cases;
    [repeat split; auto|].
  destruct (faults env _ (CClearDeferredHook "config-changed")); hooks_cases;
    [repeat split; auto|].
  split; [discriminate|].
  right; repeat split. now rewrite <- !app_assoc.
Qed.

Lemma run_deferred_hooks_failure_keeps_markers_witness :
  deferred_hooks (snd (_run_deferred_hooks env_hook_fails st_deferred))
  = ["config-changed"].
Proof.
  exact (proj1 (run_deferred_hooks_failure_keeps_markers
                  env_hook_fails st_deferred)
               (Exn "CalledProcessError" "ovs-vsctl failed") eq_refl).
Defined.

(** X6. With no failing collaborator, a hook is replayed at most once: in a
    run of [_run_deferred_hooks] that follows another, config_changed is not
    called and no marker is cleared; the run only asks the event store. *)
Theorem run_deferred_hooks_replays_once (env : Env) (st : State) :
  no_faults env ->
  let st1 := snd (_run_deferred_hooks env st) in
  _run_deferred_hooks env st1
  = (Ok tt,
     emit (if restart_permitted env then [CIsRestartPermitted]
           else [CIsRestartPermitted; CGetDeferredHooks]) st1).
Proof.
  intros H st1.
  destruct (restart_permitted env) eqn:Hp.
  - now apply _run_deferred_hooks_permitted.
  - apply (_run_deferred_hooks_nothing_deferred _ _ H Hp).
    subst st1.
    destruct (str_in "config-changed" (deferred_hooks st)) eqn:Hin.
    + apply str_in_spec in Hin.
      rewrite (_run_deferred_hooks_replay _ _ H Hp Hin).
      cbn [snd write_deferred_hooks deferred_hooks].
      rewrite remove_hook_In; tauto.
    + apply str_in_false in Hin.
      now rewrite (_run_deferred_hooks_nothing_deferred _ _ H Hp Hin).
Qed.

Lemma run_deferred_hooks_replays_once_witness :
  _run_deferred_hooks env_blocked (snd (_run_deferred_hooks env_blocked st_deferred))
  = (Ok tt,
     mkState [CIsRestartPermitted; CGetDeferredHooks; CConfigChanged false;
              CClearDeferredHook "config-changed";
              CIsRestartPermitted; CGetDeferredHooks]
             ("active", "Unit is ready") []).
Proof.
  exact (run_deferred_hooks_replays_once env_blocked st_deferred
           (fun _ _ => eq_refl)).
Defined.

(** ** str.split, ' '.join and the restart action *)

Lemma string_app_nil_r (s : string) : (s ++ "")%string = s.
Proof. induction s as [|c s IH]; simpl; congruence. Qed.

Lemma string_app_assoc (a b c : string) :
  ((a ++ b) ++ c)%string = (a ++ (b ++ c))%string.
Proof. induction a as [|x a IH]; simpl; congruence. Qed.

Lemma split_from_blank (cur s : string) :
  (forall c, In c (chars s) -> isspace c = true) ->
  split_from cur s = flush cur [].
Proof.
  revert cur; induction s as [|c s IH]; intros cur Hblank; simpl.
  - reflexivity.
  - rewrite (Hblank c) by (left; reflexivity).
    rewrite IH by (intros c' Hin; apply Hblank; right; exact Hin).
    reflexivity.
Qed.

Lemma split_from_token (t cur r : string) :
  (forall c, In c (chars t) -> isspace c = false) ->
  split_from cur (t ++ r) = split_from (cur ++ t) r.
Proof.
  revert cur; induction t as [|c t IH]; intros cur Htok; simpl.
  - now rewrite string_app_nil_r.
  - rewrite (Htok c) by (left; reflexivity).
    rewrite IH by (intros c' Hin; apply Htok; right; exact Hin).
    unfold snoc_char; now rewrite string_app_assoc.
Qed.

Lemma flush_token (t : string) (rest : list string) :
  t <> EmptyString -> flush t rest = t :: rest.
Proof. destruct t; [congruence | reflexivity]. Qed.

(** Splitting what joining with blanks gave returns the names. *)
Lemma str_split_join_blank (names : list string) :
  Forall is_token names -> str_split (join_blank names) = names.
Proof.
  unfold str_split; induction 1 as [|n r [Hne [_ Htok]] Hr IH].
  - reflexivity.
  - destruct r as [|m r].
    + cbn [join_blank].
      replace (split_from "" n) with (split_from "" (n ++ ""))
        by now rewrite string_app_nil_r.
      rewrite (split_from_token _ _ _ Htok).
      cbn [split_from append]. now apply flush_token.
    + change (join_blank (n :: m :: r))
        with (n ++ String " "%char (join_blank (m :: r)))%string.
      rewrite (split_from_token _ _ _ Htok).
      cbn [split_from append].
      change (isspace " "%char) with true; cbv iota.
      rewrite IH. now apply flush_token.
Qed.

Lemma remove_hook_absent (hook : string) (hs : list string) :
  ~ In hook hs -> remove_hook hook hs = hs.
Proof.
  unfold remove_hook; induction hs as [|h hs IH]; intros Hn; simpl.
  - reflexivity.
  - destruct (String.eqb_spec h hook) as [->|Hne]; simpl.
    + exfalso; apply Hn; left; reflexivity.
    + rewrite IH; [reflexivity | intros Hin; apply Hn; right; exact Hin].
Qed.

(** The fault-free run of the runner, in one equation. *)
Lemma _run_deferred_hooks_quiet env st :
  no_faults env ->
  _run_deferred_hooks env st
  = (Ok tt,
     write_deferred_hooks
       (if restart_permitted env then deferred_hooks st
        else remove_hook "config-changed" (deferred_hooks st))
       (emit (quiet_hook_calls env st) st)).
Proof.
  intros H; unfold quiet_hook_calls.
  destruct (restart_permitted env) eqn:Hp.
  - now rewrite (_run_deferred_hooks_permitted _ _ H Hp).
  - destruct (str_in "config-changed" (deferred_hooks st)) eqn:Hin.
    + apply str_in_spec in Hin.
      now rewrite (_run_deferred_hooks_replay _ _ H Hp Hin).
    + apply str_in_false in Hin.
      rewrite (_run_deferred_hooks_nothing_deferred _ _ H Hp Hin).
      now rewrite (remove_hook_absent _ _ Hin).
Qed.

Lemma call_quiet_at env st c :
  faults env (trace st) c = None -> call c env st = (Ok tt, emit [c] st).
Proof. intros H; unfold call; now rewrite H. Qed.

Lemma run_deferred_hooks_quiet args env st :
  no_faults env ->
  let calls :=
    quiet_hook_calls env st
    ++ [CRestartServicesAction (DeferredOnly true); CRegisterConfigs;
        CAssessStatus (configs_handle env)] in
  run_deferred_hooks args env st
  = (Ok tt,
     write_status (assessed_status env (trace st ++ calls))
       (write_deferred_hooks
          (if restart_permitted env then deferred_hooks st
           else remove_hook "config-changed" (deferred_hooks st))
          (emit calls st))).
Proof.
  intros H calls; subst calls; unfold run_deferred_hooks.
  rewrite (bind_Ok _ (_run_deferred_hooks_quiet env st H)).
  unfold restart_services_action, register_configs, assess_status.
  run H. unfold write_status, write_deferred_hooks, emit;
    cbn [trace status deferred_hooks].
  now rewrite <- !app_assoc.
Qed.

(** X7. With no failing collaborator, the run-deferred-hooks action always
    restarts the deferred services and has the status reassessed, whether or
    not a restart is permitted: it makes the calls of the hook runner, then
    restart_services_action(deferred_only=True), register_configs and
    assess_status, and clears no marker other than the one of a replayed
    config-changed hook. *)
Theorem run_deferred_hooks_always_restarts_deferred
    (args : list string) (env : Env) (st : State) :
  no_faults env ->
  let after := snd (run_deferred_hooks args env st) in
  fst (run_deferred_hooks args env st) = Ok tt
  /\ trace after
     = trace st
       ++ quiet_hook_calls env st
       ++ [CRestartServicesAction (DeferredOnly true); CRegisterConfigs;
           CAssessStatus (configs_handle env)]
  /\ (restart_permitted env = true -> deferred_hooks after = deferred_hooks st)
  /\ (restart_permitted env = false ->
      forall h, In h (deferred_hooks after)
                <-> In h (deferred_hooks st) /\ h <> "config-changed").
Proof.
  intros H; cbv zeta; rewrite (run_deferred_hooks_quiet args env st H).
  cbn [fst snd write_status write_deferred_hooks emit trace status
       deferred_hooks].
  split; [reflexivity|]. split; [reflexivity|].
  split; intros Hp; rewrite Hp; [reflexivity|].
  intros h; apply remove_hook_In.
Qed.

Lemma run_deferred_hooks_always_restarts_deferred_witness :
  trace (snd (run_deferred_hooks [] env_permitted st_deferred))
  = [CIsRestartPermitted; CRestartServicesAction (DeferredOnly true);
     CRegisterConfigs; CAssessStatus "test-config"].
Proof.
  exact (proj1 (proj2 (run_deferred_hooks_always_restarts_deferred
                         [] env_permitted st_deferred (fun _ _ => eq_refl)))).
Defined.

Lemma action_get_quiet_at env st key :
  faults env (trace st) (CActionGet key) = None ->
  action_get key env st = (Ok (params env key), emit [CActionGet key] st).
Proof.
  intros H; unfold action_get, bind, ask, ret.
  now rewrite (call_quiet_at _ _ _ H).
Qed.

Lemma bind_ret {A B : Type} (v : A) (k : A -> M B) env st :
  bind (ret v) k env st = k v env st.
Proof. reflexivity. Qed.

(** X8. restart-services with deferred-only set, run-hooks set and a services
    string that is empty or blank does, once its three parameter reads have
    succeeded, exactly what the run-deferred-hooks action does from there:
    same result, same calls, same stores, whatever the collaborators do
    afterwards. *)
Theorem restart_deferred_only_is_run_deferred_hooks
    (args args' : list string) (env : Env) (st : State) (s : string) :
  params env "services" = PStr s ->
  (forall c, In c (chars s) -> isspace c = true) ->
  truthy (params env "deferred-only") = true ->
  truthy (params env "run-hooks") = true ->
  snd (executed env (trace st)
         [CActionGet "deferred-only"; CActionGet "services";
          CActionGet "run-hooks"]) = None ->
  restart args env st
  = run_deferred_hooks args' env
      (emit [CActionGet "deferred-only"; CActionGet "services";
             CActionGet "run-hooks"] st).
Proof.
  intros Hs Hblank Hd Hr Hreads.
  cbn [executed] in Hreads.
  destruct (faults env (trace st) (CActionGet "deferred-only")) eqn:E1;
    [discriminate|].
  destruct (faults env (trace st ++ [CActionGet "deferred-only"])
                   (CActionGet "services")) eqn:E2; [discriminate|].
  destruct (faults env ((trace st ++ [CActionGet "deferred-only"])
                        ++ [CActionGet "services"])
                   (CActionGet "run-hooks")) eqn:E3; [discriminate|].
  clear Hreads.
  unfold restart, run_deferred_hooks.
  rewrite (bind_Ok _ (action_get_quiet_at env st _ E1)).
  rewrite (bind_Ok _ (action_get_quiet_at env
                        (emit [CActionGet "deferred-only"] st) _ E2)).
  rewrite Hs, Hd; unfold py_split, str_split.
  rewrite (split_from_blank _ _ Hblank); cbn [flush].
  rewrite bind_ret; cbn [nonempty andb orb negb]; cbv iota.
  rewrite (bind_Ok _ (action_get_quiet_at env
                        (emit [CActionGet "services"]
                           (emit [CActionGet "deferred-only"] st)) _ E3)).
  rewrite Hr; unfold when; rewrite !emit_emit; cbn [app].
  reflexivity.
Qed.

Lemma restart_deferred_only_is_run_deferred_hooks_witness :
  restart [] env_deferred_only st_deferred
  = (Ok tt,
     mkState [CActionGet "deferred-only"; CActionGet "services";
              CActionGet "run-hooks"; CIsRestartPermitted; CGetDeferredHooks;
              CConfigChanged false; CClearDeferredHook "config-changed";
              CRestartServicesAction (DeferredOnly true); CRegisterConfigs;
              CAssessStatus "test-config"]
             ("active", "Unit is ready") []).
Proof.
  refine (restart_deferred_only_is_run_deferred_hooks [] [] env_deferred_only
            st_deferred "" eq_refl _ eq_refl eq_refl eq_refl).
  intros c [].
Defined.

(** X9. With no failing collaborator, restart-services given the names of
    services joined by blanks (each name in ASCII, not empty and without
    blank) and no deferred-only restarts exactly those services, in that
    order: restart_services_action receives the list of names back; deferred
    hooks are run first only if run-hooks is set, and assess_status is called
    last. *)
Theorem restart_restarts_the_named_services
    (args : list string) (env : Env) (st : State) (names : list string) :
  no_faults env ->
  names <> [] ->
  Forall is_token names ->
  params env "services" = PStr (join_blank names) ->
  truthy (params env "deferred-only") = false ->
  fst (restart args env st) = Ok tt
  /\ trace (snd (restart args env st))
     = trace st
       ++ [CActionGet "deferred-only"; CActionGet "services";
           CActionGet "run-hooks"]
       ++ (if truthy (params env "run-hooks") then quiet_hook_calls env st
           else [])
       ++ [CRestartServicesAction (Services names); CRegisterConfigs;
           CAssessStatus (configs_handle env)].
Proof.
  intros H Hne Htok Hs Hd.
  unfold restart, action_get. run H.
  rewrite Hs, Hd; unfold py_split. run H.
  rewrite (str_split_join_blank names Htok).
  destruct names as [|n names]; [congruence|].
  cbn [nonempty andb orb negb]; cbv iota.
  unfold restart_services_action, register_configs, assess_status.
  run H.
  destruct (truthy (params env "run-hooks")).
  - rewrite (_run_deferred_hooks_quiet _ _ H). run H.
    cbn [fst snd trace status emit write_status write_deferred_hooks
         deferred_hooks].
    change (quiet_hook_calls env
              (emit [CActionGet "run-hooks"]
                 (emit [CActionGet "services"]
                    (emit [CActionGet "deferred-only"] st))))
      with (quiet_hook_calls env st).
    rewrite <- !app_assoc; split; reflexivity.
  - run H.
    cbn [fst snd trace status emit write_status write_deferred_hooks
         deferred_hooks].
    rewrite <- !app_assoc; split; reflexivity.
Qed.

Lemma restart_restarts_the_named_services_witness :
  trace (snd (restart [] env_two_services st_fresh))
  = [CActionGet "deferred-only"; CActionGet "services"; CActionGet "run-hooks";
     CRestartServicesAction (Services ["neutron-l3-agent"; "neutron-dhcp-agent"]);
     CRegisterConfigs; CAssessStatus "test-config"].
Proof.
  refine (proj2 (restart_restarts_the_named_services [] env_two_services
            st_fresh ["neutron-l3-agent"; "neutron-dhcp-agent"]
            (fun _ _ => eq_refl) _ _ eq_refl eq_refl)).
  - discriminate.
  - repeat constructor; try discriminate;
      intros c Hin; simpl in Hin;
      repeat (destruct Hin as [<-|Hin]; [reflexivity|]); destruct Hin.
Defined.

(** ** The dispatcher, continued *)

Lemma basename_from_plain (name cur : string) :
  (forall c, In c (chars name) -> c <> "/"%char) ->
  basename_from cur name = (cur ++ name)%string.
Proof.
  revert cur; induction name as [|c name IH]; intros cur Hplain; simpl.
  - now rewrite string_app_nil_r.
  - assert (Hc : Ascii.eqb c "/"%char = false)
      by (apply Ascii.eqb_neq, Hplain; left; reflexivity).
    rewrite Hc, IH by (intros c' Hin; apply Hplain; right; exact Hin).
    unfold snoc_char; now rewrite string_app_assoc.
Qed.

Lemma basename_from_dir (dir name cur : string) :
  basename_from cur (dir ++ String "/"%char name) = basename_from "" name.
Proof.
  revert cur; induction dir as [|c dir IH]; intros cur; simpl.
  - reflexivity.
  - destruct (Ascii.eqb c "/"%char); apply IH.
Qed.

(** Every registered handler leaves its argument list unused. *)
Lemma handlers_ignore_args (name : string) (handler : list string -> M unit) :
  dict_get name ACTIONS = Some handler ->
  forall args args', handler args = handler args'.
Proof.
  unfold ACTIONS; cbn [dict_get]; intros Hget args args'.
  repeat match type of Hget with
         | (if ?b then _ else _) = _ =>
             destruct b; [injection Hget as <-; reflexivity|]
         end.
  discriminate Hget.
Qed.

(** X10. The dispatcher depends on the base name of argv[0] only: the
    directory part of the path the action is invoked by (anything up to the
    last slash) and the other arguments change neither the handler chosen nor
    anything it does. *)
Theorem main_depends_only_on_basename
    (dir name : string) (rest rest' : list string) (env : Env) (st : State) :
  (forall c, In c (chars name) -> c <> "/"%char) ->
  basename (dir ++ String "/"%char name) = name
  /\ main ((dir ++ String "/"%char name)%string :: rest) env st
     = main (name :: rest') env st.
Proof.
  intros Hplain.
  assert (Hdir : basename (dir ++ String "/"%char name) = name).
  { unfold basename; rewrite basename_from_dir.
    now rewrite (basename_from_plain name "" Hplain). }
  assert (Hname : basename name = name)
    by (unfold basename; now rewrite (basename_from_plain name "" Hplain)).
  split; [exact Hdir|].
  unfold main; cbv zeta; rewrite Hdir, Hname.
  destruct (dict_get name ACTIONS) as [handler|] eqn:Hget; [|reflexivity].
  now rewrite (handlers_ignore_args name handler Hget
                 ((dir ++ String "/"%char name)%string :: rest) (name :: rest')).
Qed.

Lemma main_depends_only_on_basename_witness :
  main ["/var/lib/juju/agents/unit-ovs-0/charm/actions/disable"; "x"]
       env_blocked st_fresh
  = main ["disable"] env_blocked st_fresh.
Proof.
  refine (proj2 (main_depends_only_on_basename
                   "/var/lib/juju/agents/unit-ovs-0/charm/actions" "disable"
                   ["x"] [] env_blocked st_fresh _)).
  intros c Hin; simpl in Hin.
  repeat (destruct Hin as [<-|Hin]; [discriminate|]); destruct Hin.
Defined.



(** ** Blank service lists *)

Lemma flush_nil (cur : string) (rest : list string) :
  flush cur rest = [] -> cur = EmptyString /\ rest = [].
Proof. destruct cur; simpl; [auto | discriminate]. Qed.

Lemma split_from_nil (s cur : string) :
  split_from cur s = [] ->
  cur = EmptyString /\ forall c, In c (chars s) -> isspace c = true.
Proof.
  revert cur; induction s as [|c s IH]; intros cur; simpl.
  - intros Hf; apply flush_nil in Hf; split; [tauto | intros c []].
  - destruct (isspace c) eqn:Hc.
    + intros Hf; apply flush_nil in Hf; destruct Hf as [-> Hrest].
      destruct (IH _ Hrest) as [_ Hblank]; split; [reflexivity|].
      intros c' [<-|Hin]; auto.
    + intros Hf; destruct (IH _ Hf) as [Hcur _].
      unfold snoc_char in Hcur; destruct cur; discriminate Hcur.
Qed.

Lemma str_split_blank (s : string) :
  nonempty (str_split s) = false
  <-> forall c, In c (chars s) -> isspace c = true.
Proof.
  unfold str_split; split.
  - destruct (split_from "" s) eqn:Hs; [|discriminate].
    intros _; exact (proj2 (split_from_nil s "" Hs)).
  - intros Hblank; now rewrite (split_from_blank "" s Hblank).
Qed.

(** X12. With no failing collaborator and services given as an ASCII string,
    the argument check of restart-services sees the string only through whether
    it has a non-blank character: a string that is empty or all blanks
    counts as no service list (with deferred-only unset the action fails with
    "Please specify deferred-only or services"), and a string with any
    non-blank character counts as one (with deferred-only set the action
    fails with "Cannot set deferred-only and services"). *)
Theorem restart_blank_services_count_as_none
    (args : list string) (env : Env) (st : State) (s : string) :
  no_faults env ->
  params env "services" = PStr s ->
  ascii_only s = true ->
  (nonempty (str_split s) = false
   <-> forall c, In c (chars s) -> isspace c = true)
  /\ ((forall c, In c (chars s) -> isspace c = true) ->
      truthy (params env "deferred-only") = false ->
      restart args env st
      = (Ok tt,
         emit [CActionGet "deferred-only"; CActionGet "services";
               CActionFail "Please specify deferred-only or services"] st))
  /\ (forall c, In c (chars s) -> isspace c = false ->
      truthy (params env "deferred-only") = true ->
      restart args env st
      = (Ok tt,
         emit [CActionGet "deferred-only"; CActionGet "services";
               CActionFail "Cannot set deferred-only and services"] st)).
Proof.
  intros H Hs _; split; [apply str_split_blank|]; split.
  - intros Hblank Hd; apply str_split_blank in Hblank.
    unfold restart, action_get, action_fail.
    run H. rewrite Hs, Hd; unfold py_split. run H. rewrite Hblank.
    cbn [andb orb negb]; run H; rewrite !emit_emit; reflexivity.
  - intros c Hin Hc Hd.
    assert (Hsome : nonempty (str_split s) = true).
    { destruct (nonempty (str_split s)) eqn:Hn; [reflexivity|].
      rewrite (proj1 (str_split_blank s) Hn c Hin) in Hc; discriminate. }
    unfold restart, action_get, action_fail.
    run H. rewrite Hs, Hd; unfold py_split. run H. rewrite Hsome.
    cbn [andb orb negb]; run H; rewrite !emit_emit; reflexivity.
Qed.

Lemma restart_blank_services_count_as_none_witness :
  restart [] (mkEnv (fun key => if String.eqb key "services" then PStr "  " else PNone)
                    no_config sample_host_info sample_registry false
                    "test-config" [] quiet ready_assessment) st_fresh
  = (Ok tt,
     emit [CActionGet "deferred-only"; CActionGet "services";
           CActionFail "Please specify deferred-only or services"] st_fresh).
Proof.
  refine (proj1 (proj2 (restart_blank_services_count_as_none []
           (mkEnv (fun key => if String.eqb key "services" then PStr "  " else PNone)
                  no_config sample_host_info sample_registry false
                  "test-config" [] quiet ready_assessment)
           st_fresh "  " (fun _ _ => eq_refl) eq_refl eq_refl)) _ eq_refl).
  intros c Hin; simpl in Hin.
  repeat (destruct Hin as [<-|Hin]; [reflexivity|]); destruct Hin.
Defined.
